(** * galactic-spin: the rotation-curve engine of [binder/python/components.py]

    A shallow embedding of the cache store ([savedata], [loaddata],
    [checkfile]), of the component models ([blackhole], [h_viso], [halo]),
    of the quadrature combiner ([_compute_component_parallel],
    [totalvelocity_halo], [totalvelocity_miniBH]) and of the parameter-set
    builder ([set_params], [bestfit]).

    Numbers are IEEE-754 binary64 values (Rocq's primitive floats), which is
    what Python's [float] and numpy's [float64] are.  numpy arrays are lists
    of floats.  Python exceptions are an explicit error result, and the HDF5
    files the cache lives in are finite maps threaded through the calls. *)

From Stdlib Require Import Floats ZArith List Ascii String.
From stdpp Require Import base strings gmap list.

Set Warnings "-inexact-float".

(** ** Python outcomes *)

Module Py.

(** The exception classes the engine raises, catches or lets through.
    [RecursionError] is what the interpreter raises when the call depth
    passes [sys.getrecursionlimit()]. *)
Inductive exn : Set :=
  | ValueError
  | RuntimeError
  | KeyError
  | TypeError
  | FileNotFoundError
  | NameError
  | UnboundLocalError
  | IndexError
  | RecursionError.

(** A call either returns a value or raises. *)
Inductive outcome (A : Type) : Type :=
  | Return (a : A)
  | Raise (e : exn).
Arguments Return {A} a.
Arguments Raise {A} e.

(** ASCII lower-casing, the part of [str.lower] the group names need. *)
Definition ascii_lower (c : ascii) : ascii :=
  let n := nat_of_ascii c in
  if (65 <=? n)%nat && (n <=? 90)%nat then ascii_of_nat (n + 32) else c.

Fixpoint lower (s : string) : string :=
  match s with
  | EmptyString => EmptyString
  | String c s' => String (ascii_lower c) (lower s')
  end.

Definition ascii_upper (c : ascii) : ascii :=
  let n := nat_of_ascii c in
  if (97 <=? n)%nat && (n <=? 122)%nat then ascii_of_nat (n - 32) else c.

Fixpoint upper (s : string) : string :=
  match s with
  | EmptyString => EmptyString
  | String c s' => String (ascii_upper c) (upper s')
  end.

(** [s.replace(" ", "")]. *)
Fixpoint strip_spaces (s : string) : string :=
  match s with
  | EmptyString => EmptyString
  | String c s' =>
      if Ascii.eqb c " "%char then strip_spaces s' else String c (strip_spaces s')
  end.

(** [s in [a, b, ...]] on strings. *)
Definition str_in (s : string) (l : list string) : bool :=
  existsb (String.eqb s) l.

End Py.
Export Py.

(** ** numpy on one-dimensional float arrays *)

Module Np.

Open Scope float_scope.

(** [np.sqrt], elementwise. *)
Definition sqrt (a : list float) : list float := map PrimFloat.sqrt a.

(** [a**2] on an array: numpy squares by multiplying. *)
Definition square (a : list float) : list float := map (fun v => v * v) a.

(** [np.zeros_like(r)]. *)
Definition zeros_like (r : list float) : list float := map (fun _ => 0) r.

(** [np.append(a, b)]. *)
Definition append (a b : list float) : list float := a ++ b.

(** [np.delete(a, i)]: the array without position [i]. *)
Definition delete (a : list float) (i : nat) : list float :=
  firstn i a ++ skipn (S i) a.

(** [c * a] with a scalar [c]. *)
Definition scale (c : float) (a : list float) : list float := map (fun v => c * v) a.

(** [a + b] with broadcasting: equal shapes add elementwise, a one-element
    array is stretched, anything else is a [ValueError] (operands could not
    be broadcast together). *)
Definition add (a b : list float) : outcome (list float) :=
  if (length a =? length b)%nat then Return (map (fun '(u, v) => u + v) (combine a b))
  else
    match a, b with
    | [u], _ => Return (map (fun v => u + v) b)
    | _, [v] => Return (map (fun u => u + v) a)
    | _, _ => Raise ValueError
    end.

Fixpoint insert_float (v : float) (l : list float) : list float :=
  match l with
  | [] => [v]
  | w :: l' => if PrimFloat.ltb w v then w :: insert_float v l' else v :: w :: l'
  end.

(** [np.sort(a)]. *)
Definition sort (a : list float) : list float := foldr insert_float [] a.

(** [a[np.isnan(a)] = 0]. *)
Definition nan_to_zero (a : list float) : list float :=
  map (fun v => if PrimFloat.is_nan v then 0 else v) a.

End Np.

(** ** The HDF5 files behind the cache *)

Module H5.

(** A dataset is the two-row array [[xvalues, yvalues]]; a group maps
    dataset names to datasets; a file maps group names to groups; the file
    system maps file names to files. *)
Abbreviation dataset := (list float * list float)%type.
Abbreviation h5group := (gmap string (list float * list float)).
Abbreviation h5file := (gmap string (gmap string (list float * list float))).
Abbreviation filesystem := (gmap string (gmap string (gmap string (list float * list float)))).

(** Code that reads and writes files: the file system goes in and comes
    out, together with the outcome. *)
Definition io (A : Type) : Type := filesystem -> outcome A * filesystem.

Definition ret {A} (a : A) : io A := fun fs => (Return a, fs).
Definition raise {A} (e : exn) : io A := fun fs => (Raise e, fs).
Definition bind {A B} (c : io A) (k : A -> io B) : io B :=
  fun fs =>
    match c fs with
    | (Return a, fs') => k a fs'
    | (Raise e, fs') => (Raise e, fs')
    end.

(** [try: c  except ...: h e]: the handler sees the exception and the
    file system as the body left it.  A handler that does not handle [e]
    raises it again. *)
Definition try_except {A} (c : io A) (h : exn -> io A) : io A :=
  fun fs =>
    match c fs with
    | (Return a, fs') => (Return a, fs')
    | (Raise e, fs') => h e fs'
    end.

Notation "'do' x <- c ; k" := (bind c (fun x => k))
  (at level 10, x name, c at level 100, k at level 200).

(** The exception [create_dataset] raises when the name is taken depends
    on the library version: h5py 2 raises [RuntimeError] ("Unable to create
    link (name already exists)"), h5py 3 raises [ValueError] ("Unable to
    create dataset (name already exists)"). *)
Inductive h5py_version : Set := H5py2 | H5py3.

Definition dataset_exists_error (v : h5py_version) : exn :=
  match v with H5py2 => RuntimeError | H5py3 => ValueError end.

(** [h5.File(name, 'a')]: read/write, created when missing. *)
Definition open_append (name : string) : io unit :=
  fun fs =>
    match fs !! name with
    | Some _ => (Return tt, fs)
    | None => (Return tt, <[name := ∅]> fs)
    end.

(** [h5.File(name, 'r')]: the file must exist; [FileNotFoundError] is what
    h5py 3 raises and what the callers' [except] clauses name. *)
Definition open_read (name : string) : io unit :=
  fun fs =>
    match fs !! name with
    | Some _ => (Return tt, fs)
    | None => (Raise FileNotFoundError, fs)
    end.

(** [saved.create_group(group)]: [ValueError] when the name is taken. *)
Definition create_group (name group : string) : io unit :=
  fun fs =>
    match fs !! name with
    | None => (Raise FileNotFoundError, fs)
    | Some f =>
        match f !! group with
        | Some _ => (Raise ValueError, fs)
        | None => (Return tt, <[name := <[group := ∅]> f]> fs)
        end
    end.

(** [saved[group]]: [KeyError] when there is no such group. *)
Definition get_group (name group : string) : io h5group :=
  fun fs =>
    match fs !! name with
    | None => (Raise FileNotFoundError, fs)
    | Some f =>
        match f !! group with
        | Some g => (Return g, fs)
        | None => (Raise KeyError, fs)
        end
    end.

(** [grp.create_dataset(dataset, data=[xvalues, yvalues])].  h5py first
    turns [data] into one array: two rows of different lengths make no
    array, and numpy (1.24 and later) raises [ValueError] (inhomogeneous
    shape) before the file is looked at.  (An older numpy makes an array
    of two objects, which h5py refuses as well, with [TypeError]; nothing
    is stored either way.) *)
Definition create_dataset (v : h5py_version) (name group dset : string)
    (data : dataset) : io unit :=
  fun fs =>
    if negb (length (fst data) =? length (snd data))%nat then (Raise ValueError, fs)
    else
      match fs !! name with
      | None => (Raise FileNotFoundError, fs)
      | Some f =>
          match f !! group with
          | None => (Raise KeyError, fs)
          | Some g =>
              match g !! dset with
              | Some _ => (Raise (dataset_exists_error v), fs)
              | None => (Return tt, <[name := <[group := <[dset := data]> g]> f]> fs)
              end
          end
      end.

(** [grp[dataset][:]]: [KeyError] when there is no such dataset. *)
Definition get_dataset (name group dset : string) : io dataset :=
  fun fs =>
    match fs !! name with
    | None => (Raise FileNotFoundError, fs)
    | Some f =>
        match f !! group with
        | None => (Raise KeyError, fs)
        | Some g =>
            match g !! dset with
            | Some d => (Return d, fs)
            | None => (Raise KeyError, fs)
            end
        end
    end.

(** [del grp[dataset]]. *)
Definition del_dataset (name group dset : string) : io unit :=
  fun fs =>
    match fs !! name with
    | None => (Raise FileNotFoundError, fs)
    | Some f =>
        match f !! group with
        | None => (Raise KeyError, fs)
        | Some g =>
            match g !! dset with
            | Some _ => (Return tt, <[name := <[group := delete dset g]> f]> fs)
            | None => (Raise KeyError, fs)
            end
        end
    end.

(** The entry stored under (file, group, dataset), if any. *)
Definition entry (fs : filesystem) (name group dset : string) : option dataset :=
  f ← fs !! name; g ← f !! group; g !! dset.

End H5.
Export H5.

(** ** Saving and loading: the cache store *)

Module Cache.

Open Scope float_scope.
Open Scope string_scope.

(** What [loaddata] returns: the stored two-row array, or the int [1]
    when h5py was not imported. *)
Inductive load_result : Type :=
  | LArray (d : dataset)
  | LInt (z : Z).

(** What [savedata] returns: [None], the int [1] when h5py was not
    imported, or the merged y-values. *)
Inductive save_result : Type :=
  | SNone
  | SInt (z : Z)
  | SArray (y : list float).

(** What [checkfile] returns; [listing] is what it printed, the groups
    each with its dataset names. *)
Inductive check_result : Type :=
  | CNone (listing : list (string * list string))
  | CInt (z : Z).

(** [v[i]] on what [loaddata] returned: a row of the two-row array;
    subscripting an int is a [TypeError] ('int' object is not
    subscriptable). *)
Definition getitem (v : load_result) (i : nat) : io (list float) :=
  match v with
  | LArray (x, y) =>
      match i with
      | O => ret x
      | S O => ret y
      | _ => raise IndexError
      end
  | LInt _ => raise TypeError
  end.

(** Python compares the (x, y) tuples of [sorted(zip(x, y))] by the first
    components that differ. *)
Definition pair_lt (p q : float * float) : bool :=
  if PrimFloat.eqb (fst p) (fst q) then PrimFloat.ltb (snd p) (snd q)
  else PrimFloat.ltb (fst p) (fst q).

Fixpoint insert_pair (p : float * float) (l : list (float * float)) :=
  match l with
  | [] => [p]
  | q :: l' => if pair_lt q p then q :: insert_pair p l' else p :: q :: l'
  end.

(** [sorted] is stable; so is this insertion sort. *)
Definition sorted (l : list (float * float)) : list (float * float) :=
  foldr insert_pair [] l.

(** The loop that drops the later of two neighbours with the same x:
<<
    i = 0
    while i < len(x)-1:
        if x[i+1] == x[i]: x = np.delete(x,i+1); y = np.delete(y,i+1)
        else: i += 1
>>
    Every round shortens [x] or moves [i] up, so [length x] rounds are
    enough. *)
Fixpoint drop_duplicates (rounds i : nat) (x y : list float)
    : list float * list float :=
  match rounds with
  | O => (x, y)
  | S rounds' =>
      if (S i <? length x)%nat then
        match x !! S i, x !! i with
        | Some b, Some a =>
            if PrimFloat.eqb b a
            then drop_duplicates rounds' i (Np.delete x (S i)) (Np.delete y (S i))
            else drop_duplicates rounds' (S i) x y
        | _, _ => (x, y)
        end
      else (x, y)
  end.

(** The group-name aliases of [savedata], applied one after the other. *)
Definition save_group_name (group : string) : string :=
  let group := if str_in (lower group) ["disc"; "disk"; "d"] then "disk" else group in
  let group := if str_in (lower group) ["bh"; "black hole"; "blackhole"] then "blackhole" else group in
  let group := if str_in (lower group) ["dm"; "dark matter"; "h"; "halo"; "darkmatter"] then "halo" else group in
  let group := if str_in (lower group) ["b"; "bulge"] then "bulge" else group in
  let group := if str_in (lower group) ["t"; "total"] then "total" else group in
  group.

(** The group-name aliases of [loaddata]: exact spellings. *)
Definition load_group_name (group : string) : string :=
  let group := if str_in group ["Disk"; "disc"; "Disc"; "d"; "D"] then "disk" else group in
  let group := if str_in group ["bh"; "Bh"; "BH"; "Black Hole"; "BlackHole"; "Blackhole,";
                                "Black hole"; "black hole"; "Black Hole"] then "blackhole" else group in
  let group := if str_in group ["dm"; "DM"; "Dm"; "Dark Matter"; "Dark matter"; "dark matter";
                                "h"; "H"; "Halo"; "darkmatter"; "Darkmatter"; "Dark Matter"] then "halo" else group in
  let group := if str_in group ["b"; "B"; "Bulge"] then "bulge" else group in
  let group := if str_in group ["t"; "T"; "Total"] then "total" else group in
  group.

Definition defaultpath : string := "../".

Section WithLibrary.

(** The module-level flag: [1] when [import h5py] worked, [0] when it raised
    [ModuleNotFoundError]. *)
Variable h5py : Z.
(** The h5py that was imported. *)
Variable version : h5py_version.

(** [loaddata(group, dataset, path, file)].  The [saved.close()] after the
    [if] is reached only when [h5py] is neither [1] nor [0], and then
    [saved] is unbound. *)
Definition loaddata (group dataset path file : string) : io load_result :=
  if (h5py =? 1)%Z then
    let name := path ++ "/" ++ file in
    do _ <- open_read name;
    let group := load_group_name group in
    do _ <- get_group name group;
    do a <- get_dataset name group dataset;
    ret (LArray a)
  else if (h5py =? 0)%Z then ret (LInt 1)
  else raise UnboundLocalError.

(** The [except RuntimeError] block of [savedata]: load, append, sort,
    drop duplicates, delete the dataset, save again.  [grp] is bound only
    when [create_group] returned; [again] is the recursive call. *)
Definition merge_and_rewrite
    (again : list float -> list float -> string -> string -> string -> string -> io save_result)
    (grp : option string)
    (xvalues yvalues : list float) (group dataset path file : string)
    : io save_result :=
  let name := path ++ "/" ++ file in
  do l <- loaddata group dataset path file;
  do x <- getitem l 0;
  let x := Np.append x xvalues in
  do l <- loaddata group dataset path file;
  do y <- getitem l 1;
  let y := Np.append y yvalues in
  match sorted (combine x y) with
  | [] => raise ValueError
  | s =>
      let '(x, y) := drop_duplicates (length s) 0 (map fst s) (map snd s) in
      match grp with
      | None => raise UnboundLocalError
      | Some g =>
          do _ <- del_dataset name g dataset;
          do _ <- again x y group dataset path file;
          ret (SArray y)
      end
  end.

(** [savedata(xvalues, yvalues, group, dataset, path, file)].  [depth] is
    the call depth the interpreter still allows.  The [finally] block only
    closes the file.  An exception raised inside an [except] block is not
    looked up in the other [except] clauses of the same [try]: it leaves
    the statement. *)
Fixpoint savedata_depth (depth : nat) (xvalues yvalues : list float)
    (group dataset path file : string) : io save_result :=
  match depth with
  | O => raise RecursionError
  | S depth' =>
      if (h5py =? 1)%Z then
        let name := path ++ "/" ++ file in
        do _ <- open_append name;
        let group := save_group_name group in
        fun fs =>
          match create_group name group fs with
          | (Return _, fs1) =>
              match create_dataset version name group dataset (xvalues, yvalues) fs1 with
              | (Return _, fs2) => (Return SNone, fs2)
              | (Raise ValueError, fs2) =>
                  (do _ <- get_group name group;
                   do _ <- create_dataset version name group dataset (xvalues, yvalues);
                   ret SNone) fs2
              | (Raise RuntimeError, fs2) =>
                  merge_and_rewrite (savedata_depth depth') (Some group)
                    xvalues yvalues group dataset path file fs2
              | (Raise e, fs2) => (Raise e, fs2)
              end
          | (Raise ValueError, fs1) =>
              (do _ <- get_group name group;
               do _ <- create_dataset version name group dataset (xvalues, yvalues);
               ret SNone) fs1
          | (Raise RuntimeError, fs1) =>
              merge_and_rewrite (savedata_depth depth') None
                xvalues yvalues group dataset path file fs1
          | (Raise e, fs1) => (Raise e, fs1)
          end
      else if (h5py =? 0)%Z then ret (SInt 1)
      else ret SNone
  end.

(** CPython's default [sys.getrecursionlimit()]. *)
Definition recursion_limit : nat := 1000.

Definition savedata := savedata_depth recursion_limit.

(** [checkfile(group, path, file)]. *)
Definition checkfile (group path file : string) : io check_result :=
  if (h5py =? 1)%Z then
    let name := path ++ "/" ++ file in
    do _ <- open_read name;
    if String.eqb group "all" then
      fun fs =>
        match fs !! name with
        | Some f =>
            (Return (CNone (map (fun '(n, g) => (n, map fst (map_to_list g)))
                                (map_to_list f))), fs)
        | None => (Raise FileNotFoundError, fs)
        end
    else
      do g <- get_group name group;
      ret (CNone [(group, map fst (map_to_list g))])
  else if (h5py =? 0)%Z then ret (CInt 1)
  else ret (CNone []).

End WithLibrary.

End Cache.
Export Cache.

(** ** The galaxy catalog *)

Module Catalog.

(** Modelled from the spec: the per-galaxy dictionary of load_galaxies.py
    (the GalaxyRecord of the data model), which is not among the sources;
    the fields are the keys components.py reads.  Keys a galaxy may lack
    are options: the band width ['n_v_bandwidth'], the traced bulge curve
    [['bulge']['v']], the component radii [['disk']['r']] and
    [['gas']['r']], and the black-hole mass [['blackhole']['Mbh']].  The
    catalog itself, the module's table of galaxies, is a parameter. *)
Record galaxy_record : Type := {
  m_radii : list float;
  m_velocities : list float;
  m_v_errors : list float;
  n_v_bandwidth : option (list float);
  bulge_Lb : float;
  bulge_v : option (list float);
  disk_r : option (list float);
  disk_v : list float;
  gas_r : option (list float);
  gas_v : list float;
  blackhole_Mbh : option float;
  rho0 : float;
  rc : float
}.

(** Gravitational constant (kpc/solar mass*(km/s)^2). *)
Definition G : float := 4.30091e-6.

(** What [galdict] can find under a name: a galaxy dictionary, or the
    float [G]. *)
Inductive pyglobal : Type :=
  | GalaxyDict (g : galaxy_record)
  | Constant (x : float).

(** [globals()] of components.py as far as [galdict] reaches into it.
    The name looked up is upper-cased, and the names of the module in
    upper case are the galaxies that [from load_galaxies import *] brings,
    the [catalog], and the constant [G], assigned after the import. *)
Definition globals (catalog : gmap string galaxy_record) : gmap string pyglobal :=
  <["G" := Constant G]> (GalaxyDict <$> catalog).

(** [galdict(galaxy)]: [globals()[galaxy.upper().replace(" ","")]], a
    [KeyError] for a name the module does not define. *)
Definition galdict (catalog : gmap string galaxy_record) (galaxy : string)
    : outcome pyglobal :=
  match globals catalog !! strip_spaces (upper galaxy) with
  | Some v => Return v
  | None => Raise KeyError
  end.

(** [galdict_local[key]], the first thing every caller does with what
    [galdict] returned: a dictionary gives its fields, a float is a
    [TypeError] ('float' object is not subscriptable). *)
Definition fields (galdict_local : pyglobal) : outcome galaxy_record :=
  match galdict_local with
  | GalaxyDict g => Return g
  | Constant _ => Raise TypeError
  end.

(** [d[key]] for a key the dictionary may lack. *)
Definition item {A} (v : option A) : outcome A :=
  match v with
  | Some a => Return a
  | None => Raise KeyError
  end.

End Catalog.
Export Catalog.

(** ** The component models *)

Module Components.

Open Scope float_scope.
Open Scope string_scope.

(** [np.pi] and [np.finfo(float).eps]. *)
Definition pi : float := 0x1.921fb54442d18p+1.
Definition eps : float := 0x1p-52.

Section WithPlatform.

Variable h5py : Z.
Variable version : h5py_version.
(** Python's [str] on a float, which names the cache entries. *)
Variable str : float -> string.
(** The C library's [atan] and [pow], behind [np.arctan] and [**]. *)
Variable arctan : float -> float.
Variable pow : float -> float -> float.
(** [InterpolatedUnivariateSpline(x, y, k)(r)] of scipy; it raises on
    too few points or on x-values that do not increase. *)
Variable spline : list float -> list float -> nat -> list float -> outcome (list float).
(** Whether the name [traceback] is bound in the module: components.py
    does not import it, so only [from load_galaxies import *] can bind it. *)
Variable traceback_bound : bool.

(** [blackhole(r, M, load, save)]. *)
Definition blackhole (r : list float) (M : float) (load save : bool) : io (list float) :=
  (* Define component for saving *)
  let comp := "blackhole" in
  (* Rotational velocity due to a point mass (M) *)
  let a := Np.sqrt (map (fun ri => G * M / ri) r) in
  (* Saving *)
  let load := if save then false else load in
  (* Loading *)
  do save <-
    (if load then
       try_except
         (do l <- loaddata h5py comp ("Mbh" ++ str M) defaultpath (comp ++ ".hdf5");
          do y <- getitem l 1;
          do l <- loaddata h5py comp ("Mbh" ++ str M) defaultpath (comp ++ ".hdf5");
          do x <- getitem l 0;
          ret save)
         (fun e =>
            match e with
            | KeyError => ret true
            | FileNotFoundError => ret true
            | _ => raise e
            end)
     else ret save);
  if save then
    do _ <- savedata h5py version r a comp ("Mbh" ++ str M) defaultpath (comp ++ ".hdf5");
    ret a
  else ret a.

(** The vectorized velocity of [h_viso], before any loading or saving:
    zero radii are replaced by [eps] for the division, then their results
    are set to 0, then NaN is set to 0. *)
Definition h_viso_array (r : list float) (rc rho00 : float) : list float :=
  let r_safe := map (fun ri => if PrimFloat.eqb ri 0 then eps else ri) r in
  let a := Np.sqrt (map (fun rs =>
             4 * pi * G * rho00 * (pow rc 2) * (1 - ((rc / rs) * arctan (rs / rc))))
             r_safe) in
  let a := map (fun '(ri, ai) => if PrimFloat.eqb ri 0 then 0 else ai) (combine r a) in
  Np.nan_to_zero a.

(** [h_viso(r, rc, rho00, load, save, comp)]. *)
Definition h_viso (r : list float) (rc rho00 : float) (load save : bool)
    (comp : string) : io (list float) :=
  let a := h_viso_array r rc rho00 in
  let key := "rc" ++ str rc ++ "rho00" ++ str rho00 in
  let calculate (save : bool) : io (list float) :=
    if save then
      do _ <- savedata h5py version r a comp key defaultpath (comp ++ ".hdf5");
      ret a
    else ret a in
  if load then
    fun fs =>
      match (do l <- loaddata h5py comp key defaultpath (comp ++ ".hdf5");
             do y <- getitem l 1;
             do l <- loaddata h5py comp key defaultpath (comp ++ ".hdf5");
             do x <- getitem l 0;
             match spline x y 5 r with
             | Return b => ret b
             | Raise e => raise e
             end) fs with
      | (Return b, fs') => (Return b, fs')
      | (Raise KeyError, fs') => calculate true fs'
      | (Raise FileNotFoundError, fs') => calculate true fs'
      | (Raise _, fs') =>
          (* the bare except prints traceback.format_exc() *)
          if traceback_bound then calculate true fs' else (Raise NameError, fs')
      end
  else calculate save.

(** [halo(r, rc, rho00)]: the isothermal profile, without the cache. *)
Definition halo (r : list float) (rc rho00 : float) : io (list float) :=
  h_viso r rc rho00 false false "halo".

(** [halo_BH(r, scale, arraysize, massMiniBH, rcut)]. *)
Definition halo_BH (r : list float) (scale arraysize massMiniBH rcut : float)
    : outcome (list float) :=
  let x := Np.sort r in
  let mass_r := fun ri =>
    4 * pi * massMiniBH * (pow rcut 2) * (ri - rcut * arctan (ri / rcut)) in
  let y := Np.sqrt (map (fun ri => (G * (scale * arraysize) * mass_r ri) / ri) r) in
  spline x y 5 r.

Variable catalog : gmap string galaxy_record.

(** [disk(r, dpref, galaxy)]: the traced curve, scaled and splined.  For
    a galaxy that is neither NGC7814 nor NGC5533 [polynomial] is unbound
    at the [return]. *)
Definition disk (r : list float) (dpref : float) (galaxy : string)
    : outcome (list float) :=
  match galdict catalog galaxy with
  | Raise e => Raise e
  | Return galdict_local =>
      match fields galdict_local with
      | Raise e => Raise e
      | Return galdict_local =>
          let r_dat := m_radii galdict_local in
          let v_dat := disk_v galdict_local in
          if String.eqb (upper galaxy) "NGC7814" then
            spline r_dat (Np.scale dpref (disk_v galdict_local)) 5 r
          else if String.eqb (upper galaxy) "NGC5533" then
            match item (disk_r galdict_local) with
            | Raise e => Raise e
            | Return x => spline x (Np.scale dpref v_dat) 5 r
            end
          else Raise UnboundLocalError
      end
  end.

(** [gas(r, gpref, galaxy)]. *)
Definition gas (r : list float) (gpref : float) (galaxy : string)
    : outcome (list float) :=
  match galdict catalog galaxy with
  | Raise e => Raise e
  | Return galdict_local =>
      match fields galdict_local with
      | Raise e => Raise e
      | Return galdict_local =>
          let r_dat := m_radii galdict_local in
          let v_dat := gas_v galdict_local in
          if String.eqb (upper galaxy) "NGC7814" then
            spline r_dat (Np.scale gpref (gas_v galdict_local)) 5 r
          else if String.eqb (upper galaxy) "NGC5533" then
            match item (gas_r galdict_local) with
            | Raise e => Raise e
            | Return x => spline x (Np.scale gpref v_dat) 5 r
            end
          else Raise UnboundLocalError
      end
  end.

(** The deprojection integrals of [bulge] at the catalog radii,
    [b_vquarev_parallel(r_dat,L,n,re)**(1/2)]: root finding and quadrature
    are scipy's; a point whose integration fails is 0.0 there. *)
Variable bulge_trace : float -> float -> float -> list float -> list float.

(** Lift a value or an exception into [io]. *)
Definition lift {A} (o : outcome A) : io A :=
  match o with
  | Return a => ret a
  | Raise e => raise e
  end.

(** [bulge(r, bpref, galaxy, n, re, load, save, comp)]. *)
Definition bulge (r : list float) (bpref : float) (galaxy : string)
    (n re : float) (load save : bool) (comp : string) : io (list float) :=
  do galdict_local <- lift (galdict catalog galaxy);
  do galdict_local <- lift (fields galdict_local);
  let r_dat := m_radii galdict_local in
  let L := bulge_Lb galdict_local in
  let key := "L" ++ str L ++ "n" ++ str n ++ "re" ++ str re in
  let finish (y : list float) : io (list float) :=
    lift (spline r_dat (Np.scale bpref y) 5 r) in
  let calculate (save : bool) : io (list float) :=
    let y := Np.nan_to_zero (bulge_trace L n re r_dat) in
    do _ <- (if save
             then do _ <- savedata h5py version r y comp key defaultpath (comp ++ ".hdf5");
                  ret tt
             else ret tt);
    finish y in
  if String.eqb (upper galaxy) "NGC7814" then
    do y <- lift (item (bulge_v galdict_local));
    finish y
  else if String.eqb (upper galaxy) "NGC5533" then
    if load then
      try_except
        (do l <- loaddata h5py comp key defaultpath (comp ++ ".hdf5");
         do y <- getitem l 1;
         finish y)
        (fun e =>
           match e with
           | KeyError => calculate true
           | _ => raise e
           end)
    else calculate save
  else raise UnboundLocalError.

(** Concentration parameter and effective radius, the defaults of [bulge]. *)
Definition n_c : float := 2.7.
Definition re_c : float := 2.6.

(** *** The quadrature combiner *)

(** [_compute_component_parallel(component_func, r, *args)]: the squared
    result, or zeros shaped like [r] when the component raises.  What the
    component wrote before it raised stays written. *)
Definition _compute_component_parallel (component : io (list float))
    (r : list float) : io (list float) :=
  fun fs =>
    match component fs with
    | (Return result, fs') => (Return (Np.square result), fs')
    | (Raise e, fs') => (Return (Np.zeros_like r), fs')
    end.

(** [Parallel(n_jobs=-1, prefer="threads")(tasks)]: the results, in the
    order of the tasks.  The tasks share nothing but the cache files, and
    of the components only the bulge opens one, so running them one after
    the other loses nothing. *)
Fixpoint Parallel (tasks : list (io (list float))) : io (list (list float)) :=
  match tasks with
  | [] => ret []
  | t :: ts =>
      do v <- t;
      do vs <- Parallel ts;
      ret (v :: vs)
  end.

(** The builtin [sum] on arrays: it starts from the int 0 and adds from
    the left (of no array at all it is that 0). *)
Definition sum (arrays : list (list float)) : outcome (list float) :=
  match arrays with
  | [] => Return [0]
  | c :: rest =>
      fold_left
        (fun acc c' => match acc with
                       | Return a => Np.add a c'
                       | Raise e => Raise e
                       end)
        rest (Return (map (fun v => 0 + v) c))
  end.

(** [np.sqrt(sum(components_squared))]. *)
Definition sqrt_sum (components_squared : list (list float)) : io (list float) :=
  match sum components_squared with
  | Return s => ret (Np.sqrt s)
  | Raise e => raise e
  end.

(** [totalvelocity_miniBH(r, scale, arraysize, massMiniBH, rcut, bpref,
    dpref, gpref, Mbh, galaxy)]. *)
Definition totalvelocity_miniBH (r : list float)
    (scale arraysize massMiniBH rcut bpref dpref gpref Mbh : float)
    (galaxy : string) : io (list float) :=
  do components_squared <-
    Parallel
      [ _compute_component_parallel (blackhole r Mbh false false) r;
        _compute_component_parallel (bulge r bpref galaxy n_c re_c true false "bulge") r;
        _compute_component_parallel (lift (disk r dpref galaxy)) r;
        _compute_component_parallel (lift (halo_BH r scale arraysize massMiniBH rcut)) r;
        _compute_component_parallel (lift (gas r gpref galaxy)) r ];
  sqrt_sum components_squared.

(** [totalvelocity_halo(r, scale, arraysize, rho00, rcut, bpref, dpref,
    gpref, Mbh, galaxy)]. *)
Definition totalvelocity_halo (r : list float)
    (scale arraysize rho00 rcut bpref dpref gpref Mbh : float)
    (galaxy : string) : io (list float) :=
  do components_squared <-
    Parallel
      [ _compute_component_parallel (blackhole r Mbh false false) r;
        _compute_component_parallel (bulge r bpref galaxy n_c re_c true false "bulge") r;
        _compute_component_parallel (lift (disk r dpref galaxy)) r;
        _compute_component_parallel (halo r rcut rho00) r;
        _compute_component_parallel (lift (gas r gpref galaxy)) r ];
  sqrt_sum components_squared.

End WithPlatform.

End Components.
Export Components.

(** ** Finding the fitting parameters *)

Module Fit.

Open Scope float_scope.
Open Scope string_scope.

(** How an argument stands in the signature of a Python function:
    without a default, with a numeric default (an int or a float, not a
    bool), or with a default of another kind (a bool, a string, [None]). *)
Inductive signature_default : Type :=
  | NoDefault
  | NumericDefault (v : float)
  | OtherDefault.

(** The functions a caller can hand over as [model]: the two total
    velocities, or any other [def] or [lambda], known by the arguments
    after the first (the independent variable) in the order of the
    signature.  (A signature with [*args] is left out.) *)
Inductive function : Type :=
  | Ftotalvelocity_miniBH
  | Ftotalvelocity_halo
  | Flambda (args : list (string * signature_default)).

(** The Python objects [model] can be: a string, a function
    ([types.FunctionType]), an [lm.Model] built on a function, or an
    object of any other type. *)
Inductive pyobject : Type :=
  | PyStr (s : string)
  | PyFunction (f : function)
  | PyModel (f : function)
  | PyOther.

(** One row of an [lmfit.Parameters] object: the value handed to [add]
    (the initial value of the fit), whether the fit may vary it, and its
    bounds; lmfit keeps its working value inside the bounds. *)
Record parameter : Type := {
  value : float;
  vary : bool;
  min : float;
  max : float
}.

(** [lmfit.Parameters]: an ordered dictionary from names to rows. *)
Definition parameters : Type := list (string * parameter).

Definition lookup (pars : parameters) (name : string) : option parameter :=
  snd <$> find (fun p => String.eqb (fst p) name) pars.

(** [fit_pars.add(name, value, vary, min, max)]: a name that is there is
    overwritten in place, a new one goes to the end. *)
Fixpoint add (pars : parameters) (name : string) (p : parameter) : parameters :=
  match pars with
  | [] => [(name, p)]
  | (n, q) :: pars' =>
      if String.eqb n name then (n, p) :: pars' else (n, q) :: add pars' name p
  end.

(** The arguments after the independent variable; those of the two total
    velocities have no defaults. *)
Definition arguments (f : function) : list (string * signature_default) :=
  match f with
  | Ftotalvelocity_miniBH =>
      map (fun n => (n, NoDefault))
        ["scale"; "arraysize"; "massMiniBH"; "rcut"; "bpref"; "dpref"; "gpref"; "Mbh";
         "galaxy"]
  | Ftotalvelocity_halo =>
      map (fun n => (n, NoDefault))
        ["scale"; "arraysize"; "rho00"; "rcut"; "bpref"; "dpref"; "gpref"; "Mbh"; "galaxy"]
  | Flambda args => args
  end.

(** [lm.Model(f).make_params()].  lmfit makes a parameter of every
    argument without a default, a free, unbounded, unset row, and of every
    argument with a numeric default, a row seeded with the default; an
    argument with any other default is an option of the model and gets no
    row. *)
Definition make_params (f : function) : parameters :=
  flat_map
    (fun '(n, d) =>
       match d with
       | NoDefault => [(n, {| value := neg_infinity; vary := true;
                              min := neg_infinity; max := infinity |})]
       | NumericDefault v => [(n, {| value := v; vary := true;
                                     min := neg_infinity; max := infinity |})]
       | OtherDefault => []
       end)
    (arguments f).

(** [model == 'tag']. *)
Definition eq_str (model : pyobject) (tag : string) : bool :=
  match model with
  | PyStr s => String.eqb s tag
  | _ => false
  end.

(** [model == lm.Model(f)]: [lm.Model] defines no [__eq__], so the
    comparison is identity against an object made on the spot. *)
Definition eq_new_Model (model : pyobject) (f : function) : bool := false.

(** [model == f] for one of the two module-level functions. *)
Definition eq_function (model : pyobject) (f : function) : bool :=
  match model, f with
  | PyFunction Ftotalvelocity_miniBH, Ftotalvelocity_miniBH => true
  | PyFunction Ftotalvelocity_halo, Ftotalvelocity_halo => true
  | _, _ => false
  end.

Definition free (v lo hi : float) : parameter :=
  {| value := v; vary := true; min := lo; max := hi |}.
Definition fixed (v : float) : parameter :=
  {| value := v; vary := false; min := neg_infinity; max := infinity |}.

(** The halo rows, added by [set_params] and again by [bestfit]. *)
Definition add_halo (model : pyobject) (galdict_local : galaxy_record)
    (fit_pars : parameters) : parameters :=
  (* If halo consists of tiny black holes *)
  if eq_str model "bh" || eq_new_Model model Ftotalvelocity_miniBH
     || eq_function model Ftotalvelocity_miniBH then
    let fit_pars := add fit_pars "arraysize" (free 50 1 100) in
    add fit_pars "rho0" (free 1.5 0 infinity)
  (* If halo is Dark Matter halo *)
  else if eq_str model "wimp" || eq_new_Model model Ftotalvelocity_halo
          || eq_function model Ftotalvelocity_halo then
    let fit_pars := add fit_pars "arraysize" (fixed 0) in
    add fit_pars "rho0" (free (rho0 galdict_local) 0 infinity)
  else fit_pars.

Section WithCatalog.

Variable catalog : gmap string galaxy_record.

(** [set_params(model, galaxy)]. *)
Definition set_params (model : pyobject) (galaxy : string) : outcome parameters :=
  (* Set function model for fitting *)
  match
    match model with
    | PyFunction f => Return (PyModel f, make_params f)
    | PyModel f => Return (PyModel f, make_params f)
    | _ => Raise ValueError
    end
  with
  | Raise e => Raise e
  | Return (model, fit_pars) =>
      (* Define galaxy *)
      match galdict catalog galaxy with
      | Raise e => Raise e
      | Return galdict_local =>
          match fields galdict_local with
          | Raise e => Raise e
          | Return galdict_local =>
              (* Scale *)
              let fit_pars := add fit_pars "scale" (fixed (rho0 galdict_local)) in
              (* Halo *)
              let fit_pars := add_halo model galdict_local fit_pars in
              let fit_pars := add fit_pars "rcut" (free (rc galdict_local) 0.1 infinity) in
              (* Bulge *)
              let fit_pars := add fit_pars "bpref" (free 1 0 100) in
              (* Disk *)
              let fit_pars := add fit_pars "dpref" (free 1 0 100) in
              (* Gas *)
              let fit_pars := add fit_pars "gpref" (fixed 1) in
              (* Central supermassive black hole *)
              let fit_pars :=
                match item (blackhole_Mbh galdict_local) with
                | Return Mbh =>
                    if negb (PrimFloat.eqb Mbh 0)
                    then add fit_pars "Mbh" (free Mbh 1e8 infinity)
                    else add fit_pars "Mbh" (fixed 0)
                | Raise _ => add fit_pars "Mbh" (fixed 0)
                end in
              Return fit_pars
          end
      end
  end.

(** [1/a], [a**2] and [np.sqrt] as [bestfit] uses them for the weights. *)
Definition weights (model : pyobject) (galdict_local : galaxy_record)
    : outcome (list float) :=
  let plain := Return (map (fun e => 1 / e) (m_v_errors galdict_local)) in
  if eq_new_Model model Ftotalvelocity_halo || eq_function model Ftotalvelocity_halo then
    match item (n_v_bandwidth galdict_local) with
    | Raise _ => plain
    | Return band =>
        match Np.add (Np.square (m_v_errors galdict_local)) (Np.square band) with
        | Raise e => Raise e
        | Return s => Return (map (fun e => 1 / e) (Np.sqrt s))
        end
    end
  else plain.

(** The arguments of [newmodel], the lambda [bestfit] wraps [model] in. *)
Definition newmodel : function :=
  Flambda (map (fun n => (n, NoDefault))
             ["scale"; "arraysize"; "rho0"; "rcut"; "bpref"; "dpref"; "gpref"; "Mbh"]).

(** [bestfit(model, galaxy)] up to the call of [fit_mod.fit]: the
    parameters and the weights the fit is started with. *)
Definition bestfit_setup (model : pyobject) (galaxy : string)
    : outcome (parameters * list float) :=
  match galdict catalog galaxy with
  | Raise e => Raise e
  | Return galdict_local =>
      (* Set parameters *)
      match set_params (PyFunction newmodel) galaxy with
      | Raise e => Raise e
      | Return fit_pars =>
          match fields galdict_local with
          | Raise e => Raise e
          | Return galdict_local =>
              let fit_pars := add_halo model galdict_local fit_pars in
              match weights model galdict_local with
              | Raise e => Raise e
              | Return w => Return (fit_pars, w)
              end
          end
      end
  end.

End WithCatalog.

End Fit.
Export Fit.

(** ** The black-hole widget: slider ranges

    From [binder/python/widget_BH.py]: the constants and the functions the
    sliders of the widget take their bounds and starting values from. *)

Module Widget.

Open Scope float_scope.
Open Scope string_scope.

(** The numbers the range functions return: ints ([50], [245]) and floats
    ([5e2], [3.0]). *)
Inductive number : Set :=
  | PyInt (n : Z)
  | PyFloat (x : float).

(** For mass of black hole slider. *)
Definition minmassBH : float := 0.1.
Definition maxmassBH : float := 3.8.
Definition defaultmass : float := 1.5.

(** For cutoff radius. *)
Definition minrcutBH : float := 0.1.

(** [minnumberBH(galaxy)], on [str(galaxy)]: the callers pass the ints
    5533 and 7814.  A galaxy that passes neither test falls off the end of
    the function, which is [None]. *)
Definition minnumberBH (galaxy : string) : option number :=
  if String.eqb galaxy "5533" || String.eqb (strip_spaces (upper galaxy)) "NGC5533"
  then Some (PyInt 50)
  else if String.eqb galaxy "7814" || String.eqb (strip_spaces (upper galaxy)) "NGC7814"
  then Some (PyInt 1)
  else None.

(** [maxnumberBH(galaxy)]. *)
Definition maxnumberBH (galaxy : string) : option number :=
  if String.eqb galaxy "5533" || String.eqb (strip_spaces (upper galaxy)) "NGC5533"
  then Some (PyFloat 5e2)
  else if String.eqb galaxy "7814" || String.eqb (strip_spaces (upper galaxy)) "NGC7814"
  then Some (PyInt 1000)
  else None.

(** [defaultnumber(galaxy)]. *)
Definition defaultnumber (galaxy : string) : option number :=
  if String.eqb galaxy "5533" || String.eqb (strip_spaces (upper galaxy)) "NGC5533"
  then Some (PyInt 245)
  else if String.eqb galaxy "7814" || String.eqb (strip_spaces (upper galaxy)) "NGC7814"
  then Some (PyInt 600)
  else None.

(** [maxrcutBH(galaxy)]. *)
Definition maxrcutBH (galaxy : string) : option number :=
  if String.eqb galaxy "5533" || String.eqb (strip_spaces (upper galaxy)) "NGC5533"
  then Some (PyFloat 3.0)
  else if String.eqb galaxy "7814" || String.eqb (strip_spaces (upper galaxy)) "NGC7814"
  then Some (PyFloat 4.0)
  else None.

(** [defaultrcutBH(galaxy)]. *)
Definition defaultrcutBH (galaxy : string) : option number :=
  if String.eqb galaxy "5533" || String.eqb (strip_spaces (upper galaxy)) "NGC5533"
  then Some (PyFloat 1.4)
  else if String.eqb galaxy "7814" || String.eqb (strip_spaces (upper galaxy)) "NGC7814"
  then Some (PyFloat 1.6)
  else None.

End Widget.
Export Widget.


(** * Properties of the engine *)

(** ** Notions the statements use *)

Open Scope float_scope.
Open Scope string_scope.

(** The file system with [data] stored under (file, group, dataset), the
    file and the group created when missing. *)
Definition put_new (fs : filesystem) (name group dset : string) (data : dataset)
    : filesystem :=
  let f := default ∅ (fs !! name) in
  let g := default ∅ (f !! group) in
  <[name := <[group := <[dset := data]> g]> f]> fs.

(** The file system with the file and the group there, both created empty
    when missing, and nothing stored. *)
Definition with_group (fs : filesystem) (name group : string) : filesystem :=
  let f := default ∅ (fs !! name) in
  let g := default ∅ (f !! group) in
  <[name := <[group := g]> f]> fs.

(** What a component adds to the sum at position [i]: its squared value,
    or nothing when it raised. *)
Definition contribution (o : outcome (list float)) (i : nat) : float :=
  match o with
  | Return u => nth i u 0 * nth i u 0
  | Raise _ => 0
  end.

(** A component is shaped like [r] when every array it returns has the
    length of [r]. *)
Definition shaped (r : list float) (c : io (list float)) : Prop :=
  forall fs v fs', c fs = (Return v, fs') -> length v = length r.

(** The isothermal velocity at one radius, as [h_viso] writes it. *)
Definition v_iso (arctan : float -> float) (pow : float -> float -> float)
    (rc rho00 ri : float) : float :=
  PrimFloat.sqrt (4 * pi * G * rho00 * (pow rc 2) * (1 - ((rc / ri) * arctan (ri / rc)))).

(** A two-galaxy catalog for the worked examples.  The halo and
    black-hole entries are the ones components.py quotes: NGC5533 with
    rc 1.4, rho0 0.31e9 and Mbh 2.7e9, NGC5005 (the docstring of
    [set_params]) with rho0 16930000.0, rc 9.917 and Mbh 0.  The bulge
    luminosities and the measured and traced curves are stand-ins. *)
Definition sample_NGC5533 : galaxy_record :=
  {| m_radii := [1; 2; 3]; m_velocities := [200; 220; 230]; m_v_errors := [5; 5; 5];
     n_v_bandwidth := None;
     bulge_Lb := 3.27e10; bulge_v := None;
     disk_r := Some [1; 2; 3]; disk_v := [100; 140; 150];
     gas_r := Some [1; 2; 3]; gas_v := [10; 20; 22];
     blackhole_Mbh := Some 2.7e9; rho0 := 0.31e9; rc := 1.4 |}.

Definition sample_NGC5005 : galaxy_record :=
  {| m_radii := [1; 2; 3]; m_velocities := [180; 200; 210]; m_v_errors := [4; 4; 4];
     n_v_bandwidth := Some [2; 2; 2];
     bulge_Lb := 1e10; bulge_v := None;
     disk_r := None; disk_v := [90; 120; 130];
     gas_r := None; gas_v := [8; 15; 18];
     blackhole_Mbh := Some 0; rho0 := 16930000.0; rc := 9.917 |}.

Definition sample_catalog : gmap string galaxy_record :=
  <["NGC5533" := sample_NGC5533]> (<["NGC5005" := sample_NGC5005]> ∅).

(** Stand-ins for the library functions in the worked examples: a spline
    that answers the first sample everywhere, the first two terms of the
    arctangent series, squaring for [pow], and a bulge trace of zeros. *)
Definition sample_spline (x y : list float) (k : nat) (r : list float)
    : outcome (list float) :=
  match y with
  | [] => Raise ValueError
  | y0 :: _ => Return (map (fun _ => y0) r)
  end.
Definition sample_arctan (x : float) : float := x - x * x * x / 3.
Definition sample_pow (x y : float) : float := x * x.
Definition sample_bulge_trace (L n re : float) (r_dat : list float) : list float :=
  map (fun _ => 0) r_dat.
Definition sample_str (x : float) : string := "1000".



(** The five group names the cache is organised by. *)
Definition canonical : list string := ["disk"; "blackhole"; "halo"; "bulge"; "total"].

(** [float(n)], the cast a [FloatSlider] applies to its bounds and value. *)
Definition to_float (n : number) : float :=
  match n with
  | PyInt z => PrimFloat.of_uint63 (Uint63.of_Z z)
  | PyFloat x => x
  end.


(** The spellings the range functions of the widget answer to. *)
Definition widget_knows (galaxy : string) : bool :=
  str_in galaxy ["5533"; "7814"]
  || str_in (strip_spaces (upper galaxy)) ["NGC5533"; "NGC7814"].

(** ** The cache store *)

Lemma entry_put_new fs name group dset data :
  entry (put_new fs name group dset data) name group dset = Some data.
Proof.
  unfold entry, put_new. rewrite lookup_insert_eq. simpl.
  rewrite lookup_insert_eq. simpl. by rewrite lookup_insert_eq.
Qed.

Lemma entry_with_group fs name group name' group' dset' :
  entry (with_group fs name group) name' group' dset' = entry fs name' group' dset'.
Proof.
  unfold entry, with_group.
  destruct (decide (name' = name)) as [->|Hn]; [|by rewrite lookup_insert_ne].
  rewrite lookup_insert_eq. cbn.
  destruct (decide (group' = group)) as [->|Hg].
  - rewrite lookup_insert_eq. cbn.
    destruct (fs !! name) as [f|]; cbn; [|done].
    by destruct (f !! group).
  - rewrite lookup_insert_ne by done. by destruct (fs !! name).
Qed.

(** With h5py imported, [savedata] only ever creates.  Two arrays of one
    length are stored as given when the entry is new; when the entry
    exists the call raises and leaves the files as they were.  Arrays of
    different lengths are refused with [ValueError] in the [try] block and
    again in the [except ValueError] block, and nothing is stored; the
    file and the group have been made by then.  The [except RuntimeError]
    block is never entered, whatever the call depth left. *)
Lemma savedata_depth_spec version depth xvalues yvalues group dset path file fs :
  savedata_depth 1 version (S depth) xvalues yvalues group dset path file fs =
    if (length xvalues =? length yvalues)%nat then
      match entry fs (path ++ "/" ++ file) (save_group_name group) dset with
      | Some _ => (Raise (dataset_exists_error version), fs)
      | None =>
          (Return SNone,
           put_new fs (path ++ "/" ++ file) (save_group_name group) dset (xvalues, yvalues))
      end
    else (Raise ValueError, with_group fs (path ++ "/" ++ file) (save_group_name group)).
Proof.
  cbn [savedata_depth]. change (1 =? 1)%Z with true. cbv iota.
  set (name := path ++ "/" ++ file). set (grp := save_group_name group).
  assert (Hc : create_dataset version name grp dset (xvalues, yvalues)
               = fun fs0 =>
                   if (length xvalues =? length yvalues)%nat then
                     match fs0 !! name with
                     | None => (Raise FileNotFoundError, fs0)
                     | Some f =>
                         match f !! grp with
                         | None => (Raise KeyError, fs0)
                         | Some g =>
                             match g !! dset with
                             | Some _ => (Raise (dataset_exists_error version), fs0)
                             | None =>
                                 (Return tt,
                                  <[name := <[grp := <[dset := (xvalues, yvalues)]> g]> f]> fs0)
                             end
                         end
                     end
                   else (Raise ValueError, fs0)).
  { unfold create_dataset. cbn [fst snd].
    by destruct (length xvalues =? length yvalues)%nat. }
  rewrite Hc. clear Hc.
  unfold bind, open_append, entry, put_new, with_group.
  destruct (length xvalues =? length yvalues)%nat.
  - destruct (fs !! name) as [f|] eqn:Hf; cbn.
    + unfold create_group. rewrite Hf.
      destruct (f !! grp) as [g|] eqn:Hg; cbn.
      * unfold get_group. rewrite Hf, Hg. cbn. rewrite Hf, Hg.
        destruct (g !! dset) eqn:Hd; cbn; [|done].
        by destruct version.
      * rewrite lookup_insert_eq, lookup_insert_eq, lookup_empty.
        by rewrite !insert_insert_eq.
    + unfold create_group. rewrite lookup_insert_eq, lookup_empty.
      rewrite lookup_insert_eq, lookup_insert_eq, lookup_empty.
      by rewrite !insert_insert_eq.
  - destruct (fs !! name) as [f|] eqn:Hf; cbn.
    + unfold create_group. rewrite Hf.
      destruct (f !! grp) as [g|] eqn:Hg; cbn.
      * unfold get_group. rewrite Hf, Hg. cbn.
        by rewrite (insert_id f grp g Hg), (insert_id fs name f Hf).
      * unfold get_group. by rewrite lookup_insert_eq, lookup_insert_eq.
    + unfold create_group. rewrite lookup_insert_eq, lookup_empty.
      unfold get_group. rewrite lookup_insert_eq, lookup_insert_eq. cbn.
      by rewrite !insert_insert_eq.
Qed.

Lemma savedata_outcome version xvalues yvalues group dset path file fs :
  savedata 1 version xvalues yvalues group dset path file fs =
    if (length xvalues =? length yvalues)%nat then
      match entry fs (path ++ "/" ++ file) (save_group_name group) dset with
      | Some _ => (Raise (dataset_exists_error version), fs)
      | None =>
          (Return SNone,
           put_new fs (path ++ "/" ++ file) (save_group_name group) dset (xvalues, yvalues))
      end
    else (Raise ValueError, with_group fs (path ++ "/" ++ file) (save_group_name group)).
Proof. apply savedata_depth_spec. Qed.

Lemma savedata_spec version xvalues yvalues group dset path file fs :
  length xvalues = length yvalues ->
  savedata 1 version xvalues yvalues group dset path file fs =
    match entry fs (path ++ "/" ++ file) (save_group_name group) dset with
    | Some _ => (Raise (dataset_exists_error version), fs)
    | None =>
        (Return SNone,
         put_new fs (path ++ "/" ++ file) (save_group_name group) dset (xvalues, yvalues))
    end.
Proof. intros L. rewrite savedata_outcome. apply Nat.eqb_eq in L. by rewrite L. Qed.

(** The call depth left does not matter, as long as the call itself fits. *)
Lemma savedata_depth_enough h5py version depth xvalues yvalues group dset path file fs :
  savedata_depth h5py version (S depth) xvalues yvalues group dset path file fs =
  savedata_depth h5py version 1 xvalues yvalues group dset path file fs.
Proof.
  destruct (decide (h5py = 1%Z)) as [->|Hne].
  - by rewrite !savedata_depth_spec.
  - cbn [savedata_depth]. by destruct (h5py =? 1)%Z eqn:E; [apply Z.eqb_eq in E|].
Qed.

(** Without h5py, [savedata] touches nothing. *)
Lemma savedata_unavailable h5py version xvalues yvalues group dset path file fs :
  h5py <> 1%Z ->
  snd (savedata h5py version xvalues yvalues group dset path file fs) = fs.
Proof.
  intros Hne. unfold savedata, recursion_limit. rewrite savedata_depth_enough.
  cbn [savedata_depth].
  destruct (h5py =? 1)%Z eqn:E; [by apply Z.eqb_eq in E|].
  by destruct (h5py =? 0)%Z.
Qed.

Lemma savedata_without_h5py version xvalues yvalues group dset path file fs :
  savedata 0 version xvalues yvalues group dset path file fs = (Return (SInt 1), fs).
Proof. unfold savedata, recursion_limit. by rewrite savedata_depth_enough. Qed.

(** From here on [savedata] is used through the lemmas above. *)
#[global] Opaque savedata.

(** A put on an entry that exists raises and changes nothing. *)
Lemma savedata_existing_entry version xvalues yvalues group dset path file fs d :
  length xvalues = length yvalues ->
  entry fs (path ++ "/" ++ file) (save_group_name group) dset = Some d ->
  savedata 1 version xvalues yvalues group dset path file fs
  = (Raise (dataset_exists_error version), fs).
Proof. intros L E. by rewrite savedata_spec, E. Qed.

(** [loaddata] reads back what [savedata] stored, when the group name is
    one both functions spell the same way. *)
Lemma loaddata_spec group dset path file fs :
  fst (loaddata 1 group dset path file fs) =
    match fs !! (path ++ "/" ++ file) with
    | None => Raise FileNotFoundError
    | Some _ =>
        match entry fs (path ++ "/" ++ file) (load_group_name group) dset with
        | Some d => Return (LArray d)
        | None => Raise KeyError
        end
    end.
Proof.
  unfold loaddata, bind, open_read, get_group, get_dataset, entry, ret. cbn.
  destruct (fs !! (path ++ "/" ++ file)) as [f|] eqn:Hf; cbn; [|done].
  rewrite Hf. destruct (f !! load_group_name group) as [g|] eqn:Hg; cbn; [|done].
  rewrite Hf, Hg. by destruct (g !! dset).
Qed.

(** What [loaddata] answers when h5py is imported. *)
Lemma loaddata_with_h5py group dset path file fs :
  loaddata 1 group dset path file fs =
    (match fs !! (path ++ "/" ++ file) with
     | None => Raise FileNotFoundError
     | Some _ =>
         match entry fs (path ++ "/" ++ file) (load_group_name group) dset with
         | Some d => Return (LArray d)
         | None => Raise KeyError
         end
     end, fs).
Proof.
  unfold loaddata, bind, open_read, get_group, get_dataset, entry, ret. cbn.
  destruct (fs !! (path ++ "/" ++ file)) as [f|] eqn:Hf; cbn; [|done].
  rewrite Hf. destruct (f !! load_group_name group) as [g|] eqn:Hg; cbn; [|done].
  rewrite Hf, Hg. by destruct (g !! dset).
Qed.

(** A miss is a [KeyError] or a [FileNotFoundError]. *)
Lemma loaddata_miss group dset path file fs :
  entry fs (path ++ "/" ++ file) (load_group_name group) dset = None ->
  loaddata 1 group dset path file fs = (Raise KeyError, fs)
  \/ loaddata 1 group dset path file fs = (Raise FileNotFoundError, fs).
Proof.
  intros E. rewrite loaddata_with_h5py, E.
  destruct (fs !! (path ++ "/" ++ file)); auto.
Qed.

(** The docstring's example: what is saved under a new name is loaded
    back as it was saved. *)
Lemma savedata_loaddata_example version :
  let fs1 := snd (savedata 1 version [0; 1; 2; 3] [0; 1; 2; 3] "test" "example"
                    defaultpath "Inputs.hdf5" ∅) in
  fst (loaddata 1 "test" "example" defaultpath "Inputs.hdf5" fs1)
  = Return (LArray ([0; 1; 2; 3], [0; 1; 2; 3])).
Proof. vm_compute. reflexivity. Qed.

(** What the [except RuntimeError] block does when it is entered by hand
    on an entry x = [1, 2], y = [10, 20] with new arrays x = [2, 3],
    y = [20, 30]: the entry becomes x = [1, 2, 3], y = [10, 20, 30], the
    merge the docstrings promise. *)
Lemma merge_and_rewrite_example version :
  let fs1 := put_new ∅ "..//blackhole.hdf5" "blackhole" "Mbh1.0" ([1; 2], [10; 20]) in
  let result := merge_and_rewrite 1 (savedata 1 version) (Some "blackhole")
                  [2; 3] [20; 30] "blackhole" "Mbh1.0" defaultpath "blackhole.hdf5" fs1 in
  fst result = Return (SArray [10; 20; 30])
  /\ entry (snd result) "..//blackhole.hdf5" "blackhole" "Mbh1.0"
     = Some ([1; 2; 3], [10; 20; 30]).
Proof. destruct version; vm_compute; split; reflexivity. Qed.

(** C1 (code defect).  A put on an existing entry does not merge.  The
    entry blackhole/Mbh1.0 holds x = [1, 2], y = [10, 20]; a put of
    x = [2, 3], y = [20, 30] to the same entry raises (the exception of
    [create_dataset], raised inside the [except ValueError] block), and the
    entry still holds the old arrays, not the merge [1, 2, 3], [10, 20, 30]. *)
Theorem savedata_existing_entry_is_not_merged :
  forall version,
    let fs1 := snd (savedata 1 version [1; 2] [10; 20] "bh" "Mbh1.0"
                      defaultpath "blackhole.hdf5" ∅) in
    savedata 1 version [2; 3] [20; 30] "bh" "Mbh1.0" defaultpath "blackhole.hdf5" fs1
    = (Raise (dataset_exists_error version), fs1)
    /\ entry fs1 "..//blackhole.hdf5" "blackhole" "Mbh1.0" = Some ([1; 2], [10; 20])
    /\ entry fs1 "..//blackhole.hdf5" "blackhole" "Mbh1.0" <> Some ([1; 2; 3], [10; 20; 30]).
Proof.
  intros version fs1.
  assert (E : entry fs1 "..//blackhole.hdf5" "blackhole" "Mbh1.0" = Some ([1; 2], [10; 20])).
  { subst fs1. rewrite savedata_spec by reflexivity. cbn [snd]. apply entry_put_new. }
  split; [|split].
  - by apply (savedata_existing_entry version _ _ _ _ _ _ _ ([1; 2], [10; 20])).
  - exact E.
  - rewrite E. intros [=].
Qed.

(** C9 (code defect, the one of C1).  A second, identical put does not
    merge.  For two arrays of one length and an entry that is new, the
    first put returns and stores the arrays; the second raises (the
    exception of [create_dataset], raised inside the [except ValueError]
    block) and leaves the files as the first left them: the entry is that
    of a single put only because nothing was written, and the caller gets
    an exception where a merge was to collapse the duplicates.  Entered by
    hand on the same arrays, the [except RuntimeError] block does merge
    idempotently: x = [1, 2], y = [10, 20] put onto itself is stored as
    x = [1, 2], y = [10, 20] again, and the call returns y. *)
Theorem savedata_twice_raises :
  (forall version xvalues yvalues group dset path file fs,
     length xvalues = length yvalues ->
     entry fs (path ++ "/" ++ file) (save_group_name group) dset = None ->
     let first := savedata 1 version xvalues yvalues group dset path file fs in
     let second := savedata 1 version xvalues yvalues group dset path file (snd first) in
     fst first = Return SNone
     /\ entry (snd first) (path ++ "/" ++ file) (save_group_name group) dset
        = Some (xvalues, yvalues)
     /\ second = (Raise (dataset_exists_error version), snd first))
  /\ (forall version,
        let first := savedata 1 version [1; 2] [10; 20] "bh" "Mbh1.0"
                       defaultpath "blackhole.hdf5" ∅ in
        fst (savedata 1 version [1; 2] [10; 20] "bh" "Mbh1.0"
               defaultpath "blackhole.hdf5" (snd first))
        = Raise (dataset_exists_error version))
  /\ (forall version,
        let fs1 := put_new ∅ "..//blackhole.hdf5" "blackhole" "Mbh1.0" ([1; 2], [10; 20]) in
        let merged := merge_and_rewrite 1 (savedata 1 version) (Some "blackhole")
                        [1; 2] [10; 20] "blackhole" "Mbh1.0" defaultpath "blackhole.hdf5"
                        fs1 in
        fst merged = Return (SArray [10; 20])
        /\ entry (snd merged) "..//blackhole.hdf5" "blackhole" "Mbh1.0"
           = Some ([1; 2], [10; 20])).
Proof.
  assert (H : forall version xvalues yvalues group dset path file fs,
    length xvalues = length yvalues ->
    entry fs (path ++ "/" ++ file) (save_group_name group) dset = None ->
    let first := savedata 1 version xvalues yvalues group dset path file fs in
    let second := savedata 1 version xvalues yvalues group dset path file (snd first) in
    fst first = Return SNone
    /\ entry (snd first) (path ++ "/" ++ file) (save_group_name group) dset
       = Some (xvalues, yvalues)
    /\ second = (Raise (dataset_exists_error version), snd first)).
  { intros version xvalues yvalues group dset path file fs L Hnew first second.
    subst second first. rewrite (savedata_spec _ _ _ _ _ _ _ fs L), Hnew. cbn [fst snd].
    split; [done|]. split; [apply entry_put_new|].
    apply (savedata_existing_entry _ _ _ _ _ _ _ _ (xvalues, yvalues) L).
    apply entry_put_new. }
  split; [exact H|]. split.
  - intros version first.
    assert (Hnew : entry ∅ (defaultpath ++ "/" ++ "blackhole.hdf5") (save_group_name "bh")
                     "Mbh1.0" = None) by (vm_compute; reflexivity).
    destruct (H version [1; 2] [10; 20] "bh" "Mbh1.0" defaultpath "blackhole.hdf5" ∅
                eq_refl Hnew) as (_ & _ & E).
    fold first in E. by rewrite E.
  - intros version. destruct version; vm_compute; split; reflexivity.
Qed.

(** ** The black hole component *)

Lemma blackhole_flags_off h5py version str r M fs :
  blackhole h5py version str r M false false fs
  = (Return (map (fun ri => PrimFloat.sqrt (G * M / ri)) r), fs).
Proof.
  unfold blackhole, bind, ret, Np.sqrt. cbn. by rewrite map_map.
Qed.

(** Every path of [blackhole] that returns, returns the array computed
    from [r] and [M]. *)
Lemma blackhole_returns_formula h5py version str r M load save fs v fs' :
  blackhole h5py version str r M load save fs = (Return v, fs') ->
  v = map (fun ri => PrimFloat.sqrt (G * M / ri)) r.
Proof.
  unfold blackhole, bind, ret, Np.sqrt. rewrite map_map.
  intros H. repeat case_match; simplify_eq; done.
Qed.

(** C4.  With the flags at their defaults [blackhole] returns
    sqrt(G*M/r) elementwise, for every array and mass, touches no file and
    cannot raise; G is 4.30091e-6; a zero or negative radius comes out as
    inf or NaN; and the docstring's blackhole(r=10, M=1000) is 0.0207 to
    within 1e-4. *)
Theorem blackhole_is_sqrt_GM_over_r :
  (forall h5py version str r M fs,
     blackhole h5py version str r M false false fs
     = (Return (map (fun ri => PrimFloat.sqrt (G * M / ri)) r), fs))
  /\ G = 4.30091e-6
  /\ (forall h5py version str fs,
        fst (blackhole h5py version str [0; -1] 1 false false fs) = Return [infinity; nan])
  /\ (forall h5py version str fs,
        exists v, fst (blackhole h5py version str [10] 1000 false false fs) = Return [v]
                  /\ PrimFloat.ltb 0.0206 v = true /\ PrimFloat.ltb v 0.0208 = true).
Proof.
  split; [|split; [|split]].
  - intros. apply blackhole_flags_off.
  - reflexivity.
  - intros. rewrite blackhole_flags_off. vm_compute. reflexivity.
  - intros. rewrite blackhole_flags_off. eexists. cbn [fst map]. split; [reflexivity|].
    split; vm_compute; reflexivity.
Qed.

(** A hit: with the entry in the file, [blackhole] with [load] on reads
    it twice, uses neither read, and returns the computed array. *)
Lemma loaddata_hit group dset path file fs d :
  entry fs (path ++ "/" ++ file) (load_group_name group) dset = Some d ->
  loaddata 1 group dset path file fs = (Return (LArray d), fs).
Proof.
  unfold loaddata, bind, open_read, get_group, get_dataset, entry, ret. cbn.
  destruct (fs !! (path ++ "/" ++ file)) as [f|] eqn:Hf; cbn; [|done].
  rewrite Hf. destruct (f !! load_group_name group) as [g|] eqn:Hg; cbn; [|done].
  rewrite Hf, Hg. by intros ->.
Qed.

Lemma blackhole_load_hit version str r M fs d :
  entry fs "..//blackhole.hdf5" "blackhole" ("Mbh" ++ str M) = Some d ->
  blackhole 1 version str r M true false fs
  = (Return (map (fun ri => PrimFloat.sqrt (G * M / ri)) r), fs).
Proof.
  intros E. unfold blackhole, bind, try_except. cbv iota zeta.
  change ("blackhole" ++ ".hdf5") with "blackhole.hdf5".
  rewrite (loaddata_hit "blackhole" ("Mbh" ++ str M) defaultpath "blackhole.hdf5" fs d E).
  destruct d as [x y]. cbn -[loaddata].
  rewrite (loaddata_hit "blackhole" ("Mbh" ++ str M) defaultpath "blackhole.hdf5" fs _ E).
  cbn. unfold Np.sqrt. by rewrite map_map.
Qed.

(** With [save] on and the entry already there, [blackhole] raises what
    [savedata] raises. *)
Lemma blackhole_save_existing_entry version str r M load fs d :
  entry fs "..//blackhole.hdf5" "blackhole" ("Mbh" ++ str M) = Some d ->
  blackhole 1 version str r M load true fs = (Raise (dataset_exists_error version), fs).
Proof.
  intros E. unfold blackhole, bind. cbv iota zeta. unfold ret at 1. cbv beta iota.
  change ("blackhole" ++ ".hdf5") with "blackhole.hdf5".
  rewrite (savedata_existing_entry version _ _ "blackhole" _ defaultpath "blackhole.hdf5" fs d);
    [done| |exact E].
  unfold Np.sqrt. by rewrite !length_map.
Qed.

(** ** Without the storage library *)

(** The three cache operations answer the int 1 and touch nothing. *)
Lemma cache_unavailable version xvalues yvalues group dset path file fs :
  loaddata 0 group dset path file fs = (Return (LInt 1), fs)
  /\ savedata 0 version xvalues yvalues group dset path file fs = (Return (SInt 1), fs)
  /\ checkfile 0 group path file fs = (Return (CInt 1), fs).
Proof.
  split; [reflexivity|]. split; [apply savedata_without_h5py|reflexivity].
Qed.

(** With [save] on, [blackhole] computes and returns; nothing is stored. *)
Lemma blackhole_save_without_h5py version str r M load fs :
  blackhole 0 version str r M load true fs
  = (Return (map (fun ri => PrimFloat.sqrt (G * M / ri)) r), fs).
Proof.
  unfold blackhole, bind. cbv iota. unfold ret at 1. cbv beta iota.
  rewrite savedata_without_h5py. unfold ret, Np.sqrt. by rewrite map_map.
Qed.

(** C6 (code defect).  Without h5py, [blackhole] with [load] on does not
    fall back to computing: [loaddata] answers the int 1, subscripting it
    is a [TypeError], and the [except] clauses name only [KeyError] and
    [FileNotFoundError], so the call raises, for every radius array, mass
    and file system. *)
Theorem blackhole_load_without_h5py_raises :
  forall version str r M fs,
    blackhole 0 version str r M true false fs = (Raise TypeError, fs).
Proof. reflexivity. Qed.

(** What [blackhole] does with h5py imported: with [save] on it stores or
    raises as [savedata] does; with [load] alone it returns, storing when
    the cache has no entry for the mass. *)
Lemma blackhole_save_with_h5py version str r M load fs :
  blackhole 1 version str r M load true fs =
    match entry fs "..//blackhole.hdf5" "blackhole" ("Mbh" ++ str M) with
    | Some _ => (Raise (dataset_exists_error version), fs)
    | None =>
        (Return (map (fun ri => PrimFloat.sqrt (G * M / ri)) r),
         put_new fs "..//blackhole.hdf5" "blackhole" ("Mbh" ++ str M)
           (r, map (fun ri => PrimFloat.sqrt (G * M / ri)) r))
    end.
Proof.
  unfold blackhole, bind. cbv iota zeta. unfold ret at 1. cbv beta iota.
  change ("blackhole" ++ ".hdf5") with "blackhole.hdf5".
  rewrite savedata_spec by (unfold Np.sqrt; by rewrite !length_map).
  change (defaultpath ++ "/" ++ "blackhole.hdf5") with "..//blackhole.hdf5".
  change (save_group_name "blackhole") with "blackhole".
  destruct (entry fs _ _ _); [done|]. unfold ret, Np.sqrt. by rewrite map_map.
Qed.

Lemma blackhole_load_with_h5py version str r M fs :
  blackhole 1 version str r M true false fs =
    (Return (map (fun ri => PrimFloat.sqrt (G * M / ri)) r),
     match entry fs "..//blackhole.hdf5" "blackhole" ("Mbh" ++ str M) with
     | Some _ => fs
     | None => put_new fs "..//blackhole.hdf5" "blackhole" ("Mbh" ++ str M)
                 (r, map (fun ri => PrimFloat.sqrt (G * M / ri)) r)
     end).
Proof.
  destruct (entry fs "..//blackhole.hdf5" "blackhole" ("Mbh" ++ str M)) as [d|] eqn:E.
  - by apply (blackhole_load_hit version str r M fs d).
  - unfold blackhole, bind, try_except. cbv iota zeta.
    change ("blackhole" ++ ".hdf5") with "blackhole.hdf5".
    destruct (loaddata_miss "blackhole" ("Mbh" ++ str M) defaultpath "blackhole.hdf5" fs E)
      as [-> | ->]; cbn -[savedata];
      (rewrite savedata_spec by (unfold Np.sqrt; by rewrite !length_map));
      change (defaultpath ++ "/" ++ "blackhole.hdf5") with "..//blackhole.hdf5";
      change (save_group_name "blackhole") with "blackhole"; rewrite E;
      unfold ret, Np.sqrt; by rewrite map_map.
Qed.

(** C10 (code defect, those of C1 and C6).  Whether [blackhole] returns
    depends on the flags and on the cache, though what it returns does
    not.  Every call that returns, returns sqrt(G*M/r), and the loaded
    arrays are never used.  With the flags off it returns, and with [load]
    alone and h5py imported, and with [save] on and no h5py.  But with
    [save] on and an entry for the mass in the cache it raises what
    [savedata] raises, so of two calls with [save] on the first returns
    and the second raises; and with [load] alone and no h5py it raises
    [TypeError]. *)
Theorem blackhole_returns_or_raises_by_flags_and_cache :
  forall version str r M fs,
    let a := map (fun ri => PrimFloat.sqrt (G * M / ri)) r in
    let stored := entry fs "..//blackhole.hdf5" "blackhole" ("Mbh" ++ str M) in
    (forall h5py load save v fs',
       blackhole h5py version str r M load save fs = (Return v, fs') -> v = a)
    /\ (forall h5py, fst (blackhole h5py version str r M false false fs) = Return a)
    /\ fst (blackhole 1 version str r M true false fs) = Return a
    /\ (forall load, fst (blackhole 0 version str r M load true fs) = Return a)
    /\ (forall load,
          fst (blackhole 1 version str r M load true fs)
          = match stored with
            | Some _ => Raise (dataset_exists_error version)
            | None => Return a
            end)
    /\ (forall load1 load2,
          stored = None ->
          let first := blackhole 1 version str r M load1 true fs in
          fst first = Return a
          /\ fst (blackhole 1 version str r M load2 true (snd first))
             = Raise (dataset_exists_error version))
    /\ fst (blackhole 0 version str r M true false fs) = Raise TypeError.
Proof.
  intros version str r M fs a stored.
  split; [intros h5py load save v fs' E; exact (blackhole_returns_formula _ _ _ _ _ _ _ _ _ _ E)|].
  split; [intros h5py; by rewrite blackhole_flags_off|].
  split; [by rewrite blackhole_load_with_h5py|].
  split; [intros load; by rewrite blackhole_save_without_h5py|].
  split.
  { intros load. rewrite blackhole_save_with_h5py. fold stored. by destruct stored. }
  split; [|reflexivity].
  intros load1 load2 Hnew first. subst first.
  rewrite (blackhole_save_with_h5py version str r M load1 fs). fold stored.
  rewrite Hnew. cbn [fst snd]. split; [done|].
  rewrite blackhole_save_with_h5py. by rewrite entry_put_new.
Qed.

(** ** The quadrature combiner *)

Lemma nth_square u i : nth i (Np.square u) 0 = nth i u 0 * nth i u 0.
Proof. exact (map_nth (fun v => v * v) u 0 i). Qed.

Lemma nth_zeros_like r i : nth i (Np.zeros_like r) 0 = 0.
Proof.
  unfold Np.zeros_like. revert i. induction r as [|a r IH]; intros [|i]; cbn; auto.
Qed.

Lemma nth_map_seq (f : nat -> float) n i :
  (i < n)%nat -> nth i (map f (seq 0 n)) 0 = f i.
Proof.
  intros Hi. rewrite (nth_indep _ 0 (f 0%nat)) by (rewrite length_map, length_seq; lia).
  by rewrite (map_nth f), seq_nth.
Qed.

(** The helper never raises: it hands back an array shaped like [r], the
    squares of a shaped component or zeros for one that raised. *)
Lemma compute_component_spec c r fs :
  shaped r c ->
  exists cs,
    _compute_component_parallel c r fs = (Return cs, snd (c fs)) /\
    length cs = length r /\
    forall i, nth i cs 0 = contribution (fst (c fs)) i.
Proof.
  intros Hc. unfold _compute_component_parallel.
  destruct (c fs) as [[u|e] fs'] eqn:E; cbn.
  - exists (Np.square u). split; [done|]. split.
    + unfold Np.square. rewrite length_map. eauto.
    + apply nth_square.
  - exists (Np.zeros_like r). split; [done|]. split.
    + unfold Np.zeros_like. by rewrite length_map.
    + apply nth_zeros_like.
Qed.

(** Arrays of one shape add without broadcasting and without raising. *)
Lemma add_same_shape a b :
  length a = length b ->
  exists s, Np.add a b = Return s /\ length s = length a /\
            forall i, nth i s 0 = nth i a 0 + nth i b 0.
Proof.
  intros Hl. unfold Np.add. rewrite Hl, Nat.eqb_refl.
  eexists. split; [done|]. split.
  - rewrite length_map, length_combine. lia.
  - intros i.
    transitivity ((fun '(u, v) => u + v) (nth i (combine a b) (0, 0))).
    + exact (map_nth (fun '(u, v) => u + v) (combine a b) (0, 0) i).
    + by rewrite combine_nth.
Qed.

Lemma sum_five c1 c2 c3 c4 c5 n :
  length c1 = n -> length c2 = n -> length c3 = n -> length c4 = n -> length c5 = n ->
  Components.sum [c1; c2; c3; c4; c5] =
    Return (map (fun i => 0 + nth i c1 0 + nth i c2 0 + nth i c3 0 + nth i c4 0 + nth i c5 0)
                (seq 0 n)).
Proof.
  intros H1 H2 H3 H4 H5. unfold Components.sum. cbn [fold_left].
  set (s1 := map (fun v => 0 + v) c1).
  assert (L1 : length s1 = n) by (unfold s1; by rewrite length_map).
  assert (N1 : forall i, (i < n)%nat -> nth i s1 0 = 0 + nth i c1 0).
  { intros i Hi. unfold s1.
    rewrite (nth_indep _ 0 ((fun v => 0 + v) 0)) by (rewrite length_map; lia).
    by rewrite (map_nth (fun v => 0 + v)). }
  destruct (add_same_shape s1 c2) as (s2 & -> & L2 & N2); [congruence|].
  destruct (add_same_shape s2 c3) as (s3 & -> & L3 & N3); [congruence|].
  destruct (add_same_shape s3 c4) as (s4 & -> & L4 & N4); [congruence|].
  destruct (add_same_shape s4 c5) as (s5 & -> & L5 & N5); [congruence|].
  f_equal. apply (nth_ext _ _ 0 0).
  - rewrite length_map, length_seq. congruence.
  - intros i Hi. assert (i < n)%nat by congruence.
    rewrite nth_map_seq by lia.
    rewrite N5, N4, N3, N2, N1 by lia. done.
Qed.

(** Five shaped tasks, run in order and combined: the result is the root
    of the sum of the contributions, position by position, and no failure
    of a task reaches the caller. *)
Lemma quadrature_five t1 t2 t3 t4 t5 r fs :
  shaped r t1 -> shaped r t2 -> shaped r t3 -> shaped r t4 -> shaped r t5 ->
  let fs1 := snd (t1 fs) in
  let fs2 := snd (t2 fs1) in
  let fs3 := snd (t3 fs2) in
  let fs4 := snd (t4 fs3) in
  let fs5 := snd (t5 fs4) in
  (do components_squared <-
     Parallel [ _compute_component_parallel t1 r; _compute_component_parallel t2 r;
                _compute_component_parallel t3 r; _compute_component_parallel t4 r;
                _compute_component_parallel t5 r ];
   sqrt_sum components_squared) fs
  = (Return (map (fun i => PrimFloat.sqrt
                   (0 + contribution (fst (t1 fs)) i + contribution (fst (t2 fs1)) i
                      + contribution (fst (t3 fs2)) i + contribution (fst (t4 fs3)) i
                      + contribution (fst (t5 fs4)) i))
                 (seq 0 (length r))), fs5).
Proof.
  intros S1 S2 S3 S4 S5 fs1 fs2 fs3 fs4 fs5.
  destruct (compute_component_spec t1 r fs S1) as (c1 & E1 & L1 & N1).
  destruct (compute_component_spec t2 r fs1 S2) as (c2 & E2 & L2 & N2).
  destruct (compute_component_spec t3 r fs2 S3) as (c3 & E3 & L3 & N3).
  destruct (compute_component_spec t4 r fs3 S4) as (c4 & E4 & L4 & N4).
  destruct (compute_component_spec t5 r fs4 S5) as (c5 & E5 & L5 & N5).
  unfold bind at 1. cbn [Parallel]. unfold bind, ret.
  rewrite E1. fold fs1. rewrite E2. fold fs2. rewrite E3. fold fs3.
  rewrite E4. fold fs4. rewrite E5. fold fs5.
  unfold sqrt_sum. rewrite (sum_five c1 c2 c3 c4 c5 (length r)) by done.
  unfold ret, Np.sqrt. rewrite map_map. f_equal. f_equal.
  apply map_ext. intros i. by rewrite N1, N2, N3, N4, N5.
Qed.

Lemma length_h_viso_array arctan pow r rc rho00 :
  length (h_viso_array arctan pow r rc rho00) = length r.
Proof.
  unfold h_viso_array, Np.nan_to_zero, Np.sqrt.
  rewrite !length_map, length_combine, !length_map. lia.
Qed.

(** [halo] computes and returns; it reads and writes no file. *)
Lemma halo_returns h5py version str arctan pow spline tb r rc rho00 fs :
  halo h5py version str arctan pow spline tb r rc rho00 fs
  = (Return (h_viso_array arctan pow r rc rho00), fs).
Proof. reflexivity. Qed.

Lemma shaped_lift r (o : outcome (list float)) :
  (forall v, o = Return v -> length v = length r) -> shaped r (lift o).
Proof.
  intros H fs v fs' E. destruct o; cbn in E; unfold ret, raise in E; simplify_eq. eauto.
Qed.

Section Combiner.

Variable h5py : Z.
Variable version : h5py_version.
Variable str : float -> string.
Variable arctan : float -> float.
Variable pow : float -> float -> float.
Variable spline : list float -> list float -> nat -> list float -> outcome (list float).
Variable traceback_bound : bool.
Variable catalog : gmap string galaxy_record.
Variable bulge_trace : float -> float -> float -> list float -> list float.

(** A spline evaluated at [r] has the shape of [r]. *)
Hypothesis spline_shape :
  forall x y k r b, spline x y k r = Return b -> length b = length r.

Lemma shaped_blackhole r M load save :
  shaped r (blackhole h5py version str r M load save).
Proof.
  intros fs v fs' E. apply blackhole_returns_formula in E. subst.
  by rewrite length_map.
Qed.

Lemma shaped_halo r rc rho00 :
  shaped r (halo h5py version str arctan pow spline traceback_bound r rc rho00).
Proof.
  intros fs v fs' E. rewrite halo_returns in E. simplify_eq.
  apply length_h_viso_array.
Qed.

Lemma shaped_disk r dpref galaxy :
  shaped r (lift (disk spline catalog r dpref galaxy)).
Proof.
  apply shaped_lift. intros v. unfold disk, item.
  intros E. repeat case_match; simplify_eq; eauto.
Qed.

Lemma shaped_gas r gpref galaxy :
  shaped r (lift (gas spline catalog r gpref galaxy)).
Proof.
  apply shaped_lift. intros v. unfold gas, item.
  intros E. repeat case_match; simplify_eq; eauto.
Qed.

Lemma shaped_halo_BH r scale arraysize massMiniBH rcut :
  shaped r (lift (halo_BH arctan pow spline r scale arraysize massMiniBH rcut)).
Proof.
  apply shaped_lift. intros v. unfold halo_BH. eauto.
Qed.

Lemma shaped_bulge r bpref galaxy n re load save comp :
  shaped r (bulge h5py version str spline catalog bulge_trace r bpref galaxy n re load save comp).
Proof.
  intros fs v fs' E. unfold bulge, bind, try_except, lift, ret, raise, item in E.
  repeat case_match; simplify_eq; eauto.
Qed.

(** C2.  [totalvelocity_halo] always returns, and what it returns is,
    position by position over [r], the square root of the sum (from 0, in
    the order black hole, bulge, disk, halo, gas) of the squares of the
    component outputs, where a component that raised counts as 0 and the
    other components still count. *)
Theorem totalvelocity_halo_is_quadrature_sum
    r scale arraysize rho00 rcut bpref dpref gpref Mbh galaxy fs :
  let o_blackhole := fst (blackhole h5py version str r Mbh false false fs) in
  let o_bulge :=
    fst (bulge h5py version str spline catalog bulge_trace
           r bpref galaxy n_c re_c true false "bulge" fs) in
  let o_disk := disk spline catalog r dpref galaxy in
  let o_halo := fst (halo h5py version str arctan pow spline traceback_bound r rcut rho00 fs) in
  let o_gas := gas spline catalog r gpref galaxy in
  fst (totalvelocity_halo h5py version str arctan pow spline traceback_bound catalog
         bulge_trace r scale arraysize rho00 rcut bpref dpref gpref Mbh galaxy fs)
  = Return (map (fun i => PrimFloat.sqrt
                   (0 + contribution o_blackhole i + contribution o_bulge i
                      + contribution o_disk i + contribution o_halo i
                      + contribution o_gas i))
                (seq 0 (length r))).
Proof.
  intros o_blackhole o_bulge o_disk o_halo o_gas.
  unfold totalvelocity_halo.
  rewrite (quadrature_five _ _ _ _ _ r fs
             (shaped_blackhole r Mbh false false)
             (shaped_bulge r bpref galaxy n_c re_c true false "bulge")
             (shaped_disk r dpref galaxy)
             (shaped_halo r rcut rho00)
             (shaped_gas r gpref galaxy)).
  cbn [fst]. f_equal. apply map_ext. intros i.
  rewrite !blackhole_flags_off. cbn [fst snd].
  assert (Hd : forall fs0, fst (lift (disk spline catalog r dpref galaxy) fs0)
                           = disk spline catalog r dpref galaxy)
    by (intros fs0; by destruct (disk spline catalog r dpref galaxy)).
  assert (Hg : forall fs0, fst (lift (gas spline catalog r gpref galaxy) fs0)
                           = gas spline catalog r gpref galaxy)
    by (intros fs0; by destruct (gas spline catalog r gpref galaxy)).
  rewrite Hd, Hg, !halo_returns. cbn [fst].
  subst o_blackhole o_bulge o_disk o_halo o_gas.
  rewrite blackhole_flags_off, halo_returns. reflexivity.
Qed.

(** X13.  [totalvelocity_miniBH] combines in the same way, with [halo_BH]
    in the place of [halo]: it always returns, and position by position
    the value is the square root of the sum (from 0) of the squares of
    black hole, bulge, disk, point-mass halo and gas, a component that
    raised counting as 0. *)
Lemma totalvelocity_miniBH_is_quadrature_sum
    r scale arraysize massMiniBH rcut bpref dpref gpref Mbh galaxy fs :
  let o_blackhole := fst (blackhole h5py version str r Mbh false false fs) in
  let o_bulge :=
    fst (bulge h5py version str spline catalog bulge_trace
           r bpref galaxy n_c re_c true false "bulge" fs) in
  let o_disk := disk spline catalog r dpref galaxy in
  let o_halo := halo_BH arctan pow spline r scale arraysize massMiniBH rcut in
  let o_gas := gas spline catalog r gpref galaxy in
  fst (totalvelocity_miniBH h5py version str arctan pow spline catalog
         bulge_trace r scale arraysize massMiniBH rcut bpref dpref gpref Mbh galaxy fs)
  = Return (map (fun i => PrimFloat.sqrt
                   (0 + contribution o_blackhole i + contribution o_bulge i
                      + contribution o_disk i + contribution o_halo i
                      + contribution o_gas i))
                (seq 0 (length r))).
Proof.
  intros o_blackhole o_bulge o_disk o_halo o_gas.
  unfold totalvelocity_miniBH.
  rewrite (quadrature_five _ _ _ _ _ r fs
             (shaped_blackhole r Mbh false false)
             (shaped_bulge r bpref galaxy n_c re_c true false "bulge")
             (shaped_disk r dpref galaxy)
             (shaped_halo_BH r scale arraysize massMiniBH rcut)
             (shaped_gas r gpref galaxy)).
  cbn [fst]. f_equal. apply map_ext. intros i.
  rewrite !blackhole_flags_off. cbn [fst snd].
  assert (Hl : forall (o : outcome (list float)) fs0, fst (lift o fs0) = o)
    by (intros [] fs0; reflexivity).
  rewrite !Hl. subst o_blackhole o_bulge o_disk o_halo o_gas.
  rewrite blackhole_flags_off. reflexivity.
Qed.

End Combiner.

Lemma sample_spline_shape x y k r b :
  sample_spline x y k r = Return b -> length b = length r.
Proof.
  unfold sample_spline. destruct y; intros E; simplify_eq. by rewrite length_map.
Qed.

(** On an empty file system the bulge of NGC5533 raises (the cache file
    is missing and [bulge] catches only [KeyError]); the total still comes
    back, one value per radius. *)
Lemma totalvelocity_halo_is_quadrature_sum_witness :
  fst (bulge 1 H5py3 sample_str sample_spline sample_catalog sample_bulge_trace
         [1; 2] 1 "NGC5533" n_c re_c true false "bulge" ∅) = Raise FileNotFoundError
  /\ exists v,
       fst (totalvelocity_halo 1 H5py3 sample_str sample_arctan sample_pow sample_spline
              false sample_catalog sample_bulge_trace
              [1; 2] 0 0 0.31e9 1.4 1 1 1 1000 "NGC5533" ∅) = Return v
       /\ length v = 2%nat.
Proof.
  split; [vm_compute; reflexivity|].
  eexists. split.
  - exact (totalvelocity_halo_is_quadrature_sum 1 H5py3 sample_str sample_arctan sample_pow
             sample_spline false sample_catalog sample_bulge_trace sample_spline_shape
             [1; 2] 0 0 0.31e9 1.4 1 1 1 1000 "NGC5533" ∅).
  - reflexivity.
Defined.

(** ** The isothermal halo *)

(** The [eps] put in for a zero radius never shows: the value there is
    set to 0, and elsewhere it is the formula with NaN turned into 0. *)
Lemma h_viso_array_spec arctan pow r rc rho00 :
  h_viso_array arctan pow r rc rho00
  = map (fun ri => if PrimFloat.eqb ri 0 then 0
                   else let v := v_iso arctan pow rc rho00 ri in
                        if PrimFloat.is_nan v then 0 else v) r.
Proof.
  unfold h_viso_array, Np.nan_to_zero, Np.sqrt.
  induction r as [|ri r IH]; [reflexivity|].
  cbn [map combine]. rewrite IH. f_equal.
  destruct (PrimFloat.eqb ri 0) eqn:E; reflexivity.
Qed.

Lemma h_viso_array_no_nan arctan pow r rc rho00 :
  Forall (fun v => PrimFloat.is_nan v = false) (h_viso_array arctan pow r rc rho00).
Proof.
  rewrite h_viso_array_spec. apply Forall_map, Forall_forall. intros ri _.
  destruct (PrimFloat.eqb ri 0); [reflexivity|]. cbv zeta.
  destruct (PrimFloat.is_nan (v_iso arctan pow rc rho00 ri)) eqn:E; [reflexivity|exact E].
Qed.






(** [h_viso] catches everything, so there the missing library leads to
    the computed array, provided the name [traceback] is bound; when it is
    not, the handler itself raises [NameError]. *)
Lemma h_viso_load_without_h5py version str arctan pow spline traceback_bound
    r rc rho00 save comp fs :
  h_viso 0 version str arctan pow spline traceback_bound r rc rho00 true save comp fs
  = if traceback_bound then (Return (h_viso_array arctan pow r rc rho00), fs)
    else (Raise NameError, fs).
Proof.
  unfold h_viso. cbv iota zeta. unfold bind at 1. unfold loaddata. cbn [Z.eqb].
  unfold ret at 1. cbv beta iota. unfold bind at 1. unfold getitem at 1, raise at 1.
  cbv beta iota. destruct traceback_bound; [|reflexivity].
  unfold bind. by rewrite savedata_without_h5py.
Qed.

(** ** The parameter-set builder *)

Lemma lookup_add_eq pars name p : lookup (add pars name p) name = Some p.
Proof.
  unfold lookup. induction pars as [|[n q] pars IH]; cbn.
  - by rewrite String.eqb_refl.
  - destruct (String.eqb n name) eqn:E; cbn; rewrite E; [done|exact IH].
Qed.

Lemma lookup_add_ne pars name other p :
  name <> other -> lookup (add pars other p) name = lookup pars name.
Proof.
  intros Hne. unfold lookup. induction pars as [|[n q] pars IH]; cbn.
  - destruct (String.eqb other name) eqn:E; [|done].
    apply String.eqb_eq in E. congruence.
  - destruct (String.eqb n other) eqn:E; cbn.
    + apply String.eqb_eq in E. subst n.
      destruct (String.eqb other name) eqn:E'; [|done].
      apply String.eqb_eq in E'. congruence.
    + destruct (String.eqb n name); [done|exact IH].
Qed.

(** After the type test [model] is an [lm.Model], which equals neither a
    string nor a function nor a new [lm.Model]: [set_params] adds no halo
    row. *)
Lemma add_halo_Model f galdict_local fit_pars :
  add_halo (PyModel f) galdict_local fit_pars = fit_pars.
Proof. reflexivity. Qed.

Ltac lookup_added :=
  repeat (rewrite lookup_add_ne by discriminate); rewrite lookup_add_eq.

Section ParameterSet.

Variable catalog : gmap string galaxy_record.

(** C8.  For a function or an [lm.Model] as model and a galaxy of the
    catalog, [set_params] returns a parameter set where bpref and dpref
    start at 1 within [0, 100], gpref is fixed at 1, rcut starts at the
    catalog's core radius with lower bound 0.1, and Mbh starts at the
    catalog's mass with lower bound 1e8 when that mass is not 0, and is
    fixed at 0 when it is 0 or missing. *)
Theorem set_params_bounds (model : pyobject) (f : function) (galaxy : string)
    (galdict_local : galaxy_record) :
  model = PyFunction f \/ model = PyModel f ->
  galdict catalog galaxy = Return (GalaxyDict galdict_local) ->
  exists fit_pars,
    set_params catalog model galaxy = Return fit_pars
    /\ lookup fit_pars "bpref"
       = Some {| value := 1; vary := true; min := 0; max := 100 |}
    /\ lookup fit_pars "dpref"
       = Some {| value := 1; vary := true; min := 0; max := 100 |}
    /\ lookup fit_pars "gpref"
       = Some {| value := 1; vary := false; min := neg_infinity; max := infinity |}
    /\ lookup fit_pars "rcut"
       = Some {| value := rc galdict_local; vary := true; min := 0.1; max := infinity |}
    /\ lookup fit_pars "Mbh"
       = Some (match blackhole_Mbh galdict_local with
               | Some Mbh =>
                   if PrimFloat.eqb Mbh 0
                   then {| value := 0; vary := false; min := neg_infinity; max := infinity |}
                   else {| value := Mbh; vary := true; min := 1e8; max := infinity |}
               | None => {| value := 0; vary := false; min := neg_infinity; max := infinity |}
               end).
Proof.
  intros Hmodel Hgal.
  assert (E : set_params catalog model galaxy
              = set_params catalog (PyModel f) galaxy) by (by destruct Hmodel as [->| ->]).
  rewrite E. unfold set_params. rewrite Hgal. cbn [fields]. rewrite add_halo_Model.
  eexists. split; [reflexivity|].
  unfold item, free, fixed.
  destruct (blackhole_Mbh galdict_local) as [Mbh|];
    [destruct (PrimFloat.eqb Mbh 0); cbn [negb]|];
    repeat split; lookup_added; reflexivity.
Qed.

End ParameterSet.

(** NGC5533 carries a black hole of 2.7e9 solar masses, NGC5005 none. *)
Lemma set_params_bounds_witness :
  exists fit_pars,
    set_params sample_catalog (PyFunction Ftotalvelocity_halo) "ngc 5533" = Return fit_pars
    /\ lookup fit_pars "rcut"
       = Some {| value := 1.4; vary := true; min := 0.1; max := infinity |}
    /\ lookup fit_pars "Mbh"
       = Some {| value := 2.7e9; vary := true; min := 1e8; max := infinity |}.
Proof.
  destruct (set_params_bounds sample_catalog (PyFunction Ftotalvelocity_halo)
              Ftotalvelocity_halo "ngc 5533" sample_NGC5533
              (or_introl eq_refl) eq_refl)
    as (fit_pars & E & _ & _ & _ & Hrcut & HMbh).
  exists fit_pars. split; [exact E|]. split; [exact Hrcut|exact HMbh].
Defined.

(** What [bestfit] starts the isothermal fit with: scale, arraysize and
    gpref are fixed, at the catalog's rho0, at 0 and at 1, and rho0 is free
    from that same catalog value.  Whether the fit then leaves the fixed
    rows alone is lmfit's business. *)
Lemma bestfit_setup_isothermal catalog galaxy galdict_local fit_pars w :
  galdict catalog galaxy = Return (GalaxyDict galdict_local) ->
  bestfit_setup catalog (PyFunction Ftotalvelocity_halo) galaxy = Return (fit_pars, w) ->
  lookup fit_pars "scale" = Some (fixed (rho0 galdict_local))
  /\ lookup fit_pars "arraysize" = Some (fixed 0)
  /\ lookup fit_pars "gpref" = Some (fixed 1)
  /\ lookup fit_pars "rho0" = Some (free (rho0 galdict_local) 0 infinity).
Proof.
  intros Hgal. unfold bestfit_setup, set_params. rewrite Hgal. cbn [fields]. rewrite add_halo_Model.
  destruct (weights _ _); intros E; simplify_eq.
  unfold add_halo. cbn [eq_str eq_new_Model eq_function orb]. unfold item.
  destruct (blackhole_Mbh galdict_local) as [Mbh|];
    [destruct (PrimFloat.eqb Mbh 0); cbn [negb]|];
    repeat split; lookup_added; reflexivity.
Qed.

(** C5 (code defect).  The string tags never get through [set_params]:
    the type test ahead of the tag comparisons lets only functions and
    [lm.Model] objects pass, so "bh" and "wimp" raise the invalid-model
    [ValueError], for every catalog and galaxy.  And [bestfit] hands
    [set_params] its own lambda, so there no model at all, recognized or
    not, raises that error. *)
Theorem set_params_rejects_string_tags :
  (forall catalog galaxy,
     set_params catalog (PyStr "bh") galaxy = Raise ValueError
     /\ set_params catalog (PyStr "wimp") galaxy = Raise ValueError)
  /\ (exists setup, bestfit_setup sample_catalog PyOther "NGC5533" = Return setup)
  /\ (exists fit_pars,
        set_params sample_catalog (PyFunction Ftotalvelocity_halo) "NGC5533"
        = Return fit_pars).
Proof.
  split; [|split].
  - intros. split; reflexivity.
  - eexists. vm_compute. reflexivity.
  - eexists. vm_compute. reflexivity.
Qed.

(** * Further properties *)

(** ** More on the cache store *)

Lemma entry_put_new_ne fs name group dset data name' group' dset' :
  (name', group', dset') <> (name, group, dset) ->
  entry (put_new fs name group dset data) name' group' dset' = entry fs name' group' dset'.
Proof.
  intros Hne. unfold entry, put_new.
  destruct (decide (name' = name)) as [->|Hn]; [|by rewrite lookup_insert_ne].
  rewrite lookup_insert_eq. cbn.
  destruct (decide (group' = group)) as [->|Hg].
  - rewrite lookup_insert_eq. cbn.
    destruct (decide (dset' = dset)) as [->|Hd]; [done|].
    rewrite lookup_insert_ne by done.
    destruct (fs !! name) as [f|]; cbn; [|done].
    by destruct (f !! group).
  - rewrite lookup_insert_ne by done.
    by destruct (fs !! name).
Qed.

(** X2.  A put touches one entry only: every other (file, group,
    dataset) holds after [savedata] what it held before, whether the put
    stored, raised, or found no h5py. *)
Theorem savedata_keeps_other_entries h5py version xvalues yvalues group dset path file fs
    name' group' dset' :
  (name', group', dset') <> (path ++ "/" ++ file, save_group_name group, dset) ->
  entry (snd (savedata h5py version xvalues yvalues group dset path file fs)) name' group' dset'
  = entry fs name' group' dset'.
Proof.
  intros Hne. destruct (decide (h5py = 1%Z)) as [->|H1].
  - rewrite savedata_outcome.
    destruct (length xvalues =? length yvalues)%nat; [|apply entry_with_group].
    destruct (entry fs _ _ dset); cbn [snd]; [done|].
    by apply entry_put_new_ne.
  - by rewrite savedata_unavailable.
Qed.

(** X1.  With h5py imported, [savedata] is create-only, for two arrays
    of one length (h5py stores them as one two-row array).  When the entry
    does not exist it returns [None] and stores the arrays exactly as
    given, creating the file and the group when they are missing.  When
    the entry exists it raises what [create_dataset] raises and leaves all
    files as they were. *)
Theorem savedata_creates_or_raises version xvalues yvalues group dset path file fs :
  length xvalues = length yvalues ->
  savedata 1 version xvalues yvalues group dset path file fs =
    match entry fs (path ++ "/" ++ file) (save_group_name group) dset with
    | Some _ => (Raise (dataset_exists_error version), fs)
    | None =>
        (Return SNone,
         put_new fs (path ++ "/" ++ file) (save_group_name group) dset (xvalues, yvalues))
    end.
Proof. apply savedata_spec. Qed.

Lemma savedata_creates_or_raises_witness :
  savedata 1 H5py3 [1; 2] [3; 4] "Dark Matter" "rc1.4rho00310000000.0"
    defaultpath "halo.hdf5" ∅
  = (Return SNone,
     put_new ∅ "..//halo.hdf5" "halo" "rc1.4rho00310000000.0" ([1; 2], [3; 4])).
Proof.
  rewrite (savedata_creates_or_raises H5py3 [1; 2] [3; 4] "Dark Matter"
             "rc1.4rho00310000000.0" defaultpath "halo.hdf5" ∅ eq_refl).
  reflexivity.
Defined.

Lemma savedata_keeps_other_entries_witness :
  entry (snd (savedata 1 H5py3 [9] [9] "bulge" "L1n2re3" defaultpath "bulge.hdf5"
                (put_new ∅ "..//halo.hdf5" "halo" "rc1.4rho00310000000.0" ([1], [2]))))
        "..//halo.hdf5" "halo" "rc1.4rho00310000000.0"
  = Some ([1], [2]).
Proof.
  rewrite (savedata_keeps_other_entries 1 H5py3 [9] [9] "bulge" "L1n2re3" defaultpath
             "bulge.hdf5" _ "..//halo.hdf5" "halo" "rc1.4rho00310000000.0"
             ltac:(discriminate)).
  apply entry_put_new.
Defined.

(** X3.  Round trip.  What [savedata] stores under a new entry (two
    arrays of one length), [loaddata] reads back unchanged, for every
    group name the two alias tables agree on. *)
Theorem savedata_then_loaddata version xvalues yvalues group dset path file fs :
  length xvalues = length yvalues ->
  entry fs (path ++ "/" ++ file) (save_group_name group) dset = None ->
  load_group_name group = save_group_name group ->
  loaddata 1 group dset path file
    (snd (savedata 1 version xvalues yvalues group dset path file fs))
  = (Return (LArray (xvalues, yvalues)),
     snd (savedata 1 version xvalues yvalues group dset path file fs)).
Proof.
  intros L Hnew Halias. rewrite (savedata_spec _ _ _ _ _ _ _ _ L), Hnew. cbn [snd].
  apply loaddata_hit. rewrite Halias. apply entry_put_new.
Qed.

Lemma savedata_then_loaddata_witness :
  fst (loaddata 1 "halo" "rc1.4rho00310000000.0" defaultpath "halo.hdf5"
         (snd (savedata 1 H5py3 [1; 2] [3; 4] "halo" "rc1.4rho00310000000.0"
                 defaultpath "halo.hdf5" ∅)))
  = Return (LArray ([1; 2], [3; 4])).
Proof.
  assert (Hnew : entry ∅ (defaultpath ++ "/" ++ "halo.hdf5") (save_group_name "halo")
                   "rc1.4rho00310000000.0" = None) by (vm_compute; reflexivity).
  rewrite (savedata_then_loaddata H5py3 [1; 2] [3; 4] "halo" "rc1.4rho00310000000.0"
             defaultpath "halo.hdf5" ∅ eq_refl Hnew eq_refl).
  reflexivity.
Defined.

(** X25.  Two arrays of different lengths are not stored.  h5py makes
    one array of [[xvalues, yvalues]] and numpy (1.24 and later) refuses
    the ragged pair: [savedata] raises [ValueError], from the [try] block
    and again from the [except ValueError] block.  By then the file and
    the group have been made, so both are there afterwards, but every
    entry is as it was. *)
Theorem savedata_refuses_unequal_lengths version xvalues yvalues group dset path file fs :
  length xvalues <> length yvalues ->
  savedata 1 version xvalues yvalues group dset path file fs
  = (Raise ValueError, with_group fs (path ++ "/" ++ file) (save_group_name group))
  /\ (forall name' group' dset',
        entry (snd (savedata 1 version xvalues yvalues group dset path file fs))
          name' group' dset'
        = entry fs name' group' dset')
  /\ (exists g,
        snd (savedata 1 version xvalues yvalues group dset path file fs)
          !! (path ++ "/" ++ file) = Some g
        /\ g !! save_group_name group <> None).
Proof.
  intros L. apply Nat.eqb_neq in L. rewrite savedata_outcome, L. cbn [snd].
  split; [done|]. split; [intros; apply entry_with_group|].
  unfold with_group. eexists. split; [apply lookup_insert_eq|].
  by rewrite lookup_insert_eq.
Qed.

Lemma savedata_refuses_unequal_lengths_witness :
  savedata 1 H5py3 [1; 2; 3] [4; 5] "halo" "rc1.4rho00310000000.0" defaultpath "halo.hdf5" ∅
  = (Raise ValueError, with_group ∅ "..//halo.hdf5" "halo")
  /\ fst (checkfile 1 "halo" defaultpath "halo.hdf5" (with_group ∅ "..//halo.hdf5" "halo"))
     = Return (CNone [("halo", [])]).
Proof.
  split; [|vm_compute; reflexivity].
  destruct (savedata_refuses_unequal_lengths H5py3 [1; 2; 3] [4; 5] "halo"
              "rc1.4rho00310000000.0" defaultpath "halo.hdf5" ∅ ltac:(discriminate))
    as [E _].
  exact E.
Defined.

Lemma str_in_In s l : str_in s l = true -> In s l.
Proof.
  unfold str_in. rewrite existsb_exists. intros (x & Hx & E).
  apply String.eqb_eq in E. by subst.
Qed.

Lemma save_group_name_cases g :
  In (save_group_name g) canonical \/ save_group_name g = g.
Proof.
  unfold save_group_name.
  destruct (str_in (lower g) ["disc"; "disk"; "d"]); [left; vm_compute; tauto|].
  destruct (str_in (lower g) ["bh"; "black hole"; "blackhole"]); [left; vm_compute; tauto|].
  destruct (str_in (lower g) ["dm"; "dark matter"; "h"; "halo"; "darkmatter"]);
    [left; vm_compute; tauto|].
  destruct (str_in (lower g) ["b"; "bulge"]); [left; vm_compute; tauto|].
  destruct (str_in (lower g) ["t"; "total"]); [left; vm_compute; tauto|].
  by right.
Qed.

Ltac alias_case E :=
  apply str_in_In in E; cbn in E; decompose [or] E; try contradiction; subst;
  first [ right; left; reflexivity | right; right; reflexivity ].

(** X4.  The alias tables.  [savedata] sends a name to one of the five
    group names or leaves it alone, and normalising twice changes nothing;
    the five names themselves are left alone by both tables.  Every
    spelling [loaddata] rewrites, [savedata] rewrites to the same name,
    except the entry 'Blackhole,' (with the comma) of [loaddata]'s list.
    The converse fails: [savedata] lower-cases first, [loaddata] knows
    only the spellings listed, so 'DISK' is saved under 'disk' and looked
    up under 'DISK'. *)
Theorem group_aliases :
  (forall g, In (save_group_name g) canonical \/ save_group_name g = g)
  /\ (forall g, save_group_name (save_group_name g) = save_group_name g)
  /\ (forall g, In g canonical -> save_group_name g = g /\ load_group_name g = g)
  /\ (forall g, load_group_name g = g \/ g = "Blackhole,"
                \/ save_group_name g = load_group_name g)
  /\ load_group_name "Blackhole," = "blackhole"
  /\ save_group_name "Blackhole," = "Blackhole,"
  /\ save_group_name "DISK" = "disk" /\ load_group_name "DISK" = "DISK".
Proof.
  split; [exact save_group_name_cases|].
  split.
  { intros g. destruct (save_group_name_cases g) as [H|H].
    - cbn in H. decompose [or] H; try contradiction;
        match goal with E : _ = save_group_name g |- _ => rewrite <- E end; reflexivity.
    - by rewrite !H. }
  split.
  { intros g H. cbn in H. decompose [or] H; try contradiction; subst; split; reflexivity. }
  split.
  { intros g. unfold load_group_name.
    destruct (str_in g ["Disk"; "disc"; "Disc"; "d"; "D"]) eqn:E1; [alias_case E1|].
    destruct (str_in g ["bh"; "Bh"; "BH"; "Black Hole"; "BlackHole"; "Blackhole,";
                        "Black hole"; "black hole"; "Black Hole"]) eqn:E2; [alias_case E2|].
    destruct (str_in g ["dm"; "DM"; "Dm"; "Dark Matter"; "Dark matter"; "dark matter";
                        "h"; "H"; "Halo"; "darkmatter"; "Darkmatter"; "Dark Matter"]) eqn:E3;
      [alias_case E3|].
    destruct (str_in g ["b"; "B"; "Bulge"]) eqn:E4; [alias_case E4|].
    destruct (str_in g ["t"; "T"; "Total"]) eqn:E5; [alias_case E5|].
    by left. }
  repeat split.
Qed.

(** X5.  [loaddata] never changes a file, with h5py or without.  With
    h5py it raises [FileNotFoundError] when the file is missing, [KeyError]
    when the group or the dataset is, and returns the stored two-row array
    otherwise. *)
Theorem loaddata_outcome h5py group dset path file fs :
  snd (loaddata h5py group dset path file fs) = fs
  /\ loaddata 1 group dset path file fs =
       (match fs !! (path ++ "/" ++ file) with
        | None => Raise FileNotFoundError
        | Some _ =>
            match entry fs (path ++ "/" ++ file) (load_group_name group) dset with
            | Some d => Return (LArray d)
            | None => Raise KeyError
            end
        end, fs).
Proof.
  assert (H1 : loaddata 1 group dset path file fs =
       (match fs !! (path ++ "/" ++ file) with
        | None => Raise FileNotFoundError
        | Some _ =>
            match entry fs (path ++ "/" ++ file) (load_group_name group) dset with
            | Some d => Return (LArray d)
            | None => Raise KeyError
            end
        end, fs)).
  { unfold loaddata, bind, open_read, get_group, get_dataset, entry, ret. cbn.
    destruct (fs !! (path ++ "/" ++ file)) as [f|] eqn:Hf; cbn; [|done].
    rewrite Hf. destruct (f !! load_group_name group) as [g|] eqn:Hg; cbn; [|done].
    rewrite Hf, Hg. by destruct (g !! dset). }
  split; [|exact H1].
  destruct (decide (h5py = 1%Z)) as [->|Hne]; [by rewrite H1|].
  unfold loaddata. destruct (h5py =? 1)%Z eqn:E; [by apply Z.eqb_eq in E|].
  by destruct (h5py =? 0)%Z.
Qed.

(** X6.  When [checkfile] reports on one group, it changes no file and
    the names it lists are exactly the datasets stored in that group of
    that file. *)
Theorem checkfile_lists_what_is_stored group path file fs listing fs' :
  group <> "all" ->
  checkfile 1 group path file fs = (Return (CNone listing), fs') ->
  fs' = fs
  /\ exists names, listing = [(group, names)]
     /\ forall dset, In dset names <-> entry fs (path ++ "/" ++ file) group dset <> None.
Proof.
  intros Hall. unfold checkfile, bind, open_read, get_group, ret, entry. cbn.
  apply String.eqb_neq in Hall. rewrite Hall.
  destruct (fs !! (path ++ "/" ++ file)) as [f|] eqn:Hf; cbn; [|done].
  rewrite Hf. destruct (f !! group) as [g|] eqn:Hg; cbn; [|done].
  intros [= <- <-]. split; [done|]. eexists. split; [done|].
  intros dset. rewrite in_map_iff. split.
  - intros ([k v] & <- & Hin). cbn.
    apply list_elem_of_In, elem_of_map_to_list in Hin. by rewrite Hin.
  - intros Hd. destruct (g !! dset) as [v|] eqn:E; [|done].
    exists (dset, v). split; [done|]. by apply list_elem_of_In, elem_of_map_to_list.
Qed.

Lemma checkfile_lists_what_is_stored_witness :
  exists names,
    fst (checkfile 1 "halo" defaultpath "halo.hdf5"
           (put_new ∅ "..//halo.hdf5" "halo" "rc1.4rho00310000000.0" ([1], [2])))
    = Return (CNone [("halo", names)])
    /\ In "rc1.4rho00310000000.0" names.
Proof.
  set (fs := put_new ∅ "..//halo.hdf5" "halo" "rc1.4rho00310000000.0" ([1], [2])).
  assert (E : checkfile 1 "halo" defaultpath "halo.hdf5" fs
              = (Return (CNone [("halo", ["rc1.4rho00310000000.0"])]), fs))
    by (vm_compute; reflexivity).
  destruct (checkfile_lists_what_is_stored "halo" defaultpath "halo.hdf5" fs _ fs
              ltac:(discriminate) E) as (_ & names & Hl & Hn).
  exists names. rewrite E. cbn [fst]. split; [by rewrite Hl|].
  apply Hn. change (defaultpath ++ "/" ++ "halo.hdf5") with "..//halo.hdf5".
  unfold fs. by rewrite entry_put_new.
Defined.

(** ** More on the components *)

(** [loaddata] is read-only. *)
Lemma loaddata_read_only h5py group dset path file fs :
  snd (loaddata h5py group dset path file fs) = fs.
Proof.
  destruct (decide (h5py = 1%Z)) as [->|Hne]; [by rewrite loaddata_with_h5py|].
  unfold loaddata. destruct (h5py =? 1)%Z eqn:E; [by apply Z.eqb_eq in E|].
  by destruct (h5py =? 0)%Z.
Qed.

Lemma lift_pair {A} (o : outcome A) fs : lift o fs = (o, fs).
Proof. by destruct o. Qed.

(** X7.  [blackhole] with [load] on (and h5py imported) always returns
    the formula, never what the cache holds: the loaded arrays are
    discarded.  When the cache has no entry for this mass, the call stores
    (r, sqrt (G M / r)) under it; when it has one, the files stay as they
    are.  So after one such call no later call for the same mass, at any
    radii, changes a file. *)
Theorem blackhole_load_fills_cache_once version str r M fs :
  let a := map (fun ri => PrimFloat.sqrt (G * M / ri)) r in
  let after := snd (blackhole 1 version str r M true false fs) in
  blackhole 1 version str r M true false fs =
    (Return a,
     match entry fs "..//blackhole.hdf5" "blackhole" ("Mbh" ++ str M) with
     | Some _ => fs
     | None => put_new fs "..//blackhole.hdf5" "blackhole" ("Mbh" ++ str M) (r, a)
     end)
  /\ forall r', snd (blackhole 1 version str r' M true false after) = after.
Proof.
  intros a after.
  assert (H : forall r0 fs0,
    blackhole 1 version str r0 M true false fs0 =
    (Return (map (fun ri => PrimFloat.sqrt (G * M / ri)) r0),
     match entry fs0 "..//blackhole.hdf5" "blackhole" ("Mbh" ++ str M) with
     | Some _ => fs0
     | None => put_new fs0 "..//blackhole.hdf5" "blackhole" ("Mbh" ++ str M)
                 (r0, map (fun ri => PrimFloat.sqrt (G * M / ri)) r0)
     end)).
  { intros r0 fs0.
    destruct (entry fs0 "..//blackhole.hdf5" "blackhole" ("Mbh" ++ str M)) as [d|] eqn:E.
    - by apply (blackhole_load_hit version str r0 M fs0 d).
    - unfold blackhole, bind, try_except. cbv iota zeta.
      change ("blackhole" ++ ".hdf5") with "blackhole.hdf5".
      destruct (loaddata_miss "blackhole" ("Mbh" ++ str M) defaultpath "blackhole.hdf5" fs0 E)
        as [-> | ->]; cbn -[savedata]; (rewrite savedata_spec by (unfold Np.sqrt; by rewrite !length_map));
        change (defaultpath ++ "/" ++ "blackhole.hdf5") with "..//blackhole.hdf5";
        change (save_group_name "blackhole") with "blackhole"; rewrite E;
        unfold ret, Np.sqrt; by rewrite map_map. }
  split; [apply H|].
  intros r'. rewrite (H r'). cbn [snd].
  assert (Ha : entry after "..//blackhole.hdf5" "blackhole" ("Mbh" ++ str M) <> None).
  { subst after. rewrite H. cbn [snd].
    destruct (entry fs _ _ _) eqn:E; [by rewrite E|by rewrite entry_put_new]. }
  by destruct (entry after _ _ _).
Qed.

(** X8.  [blackhole] with [save] on (and h5py imported) ignores [load]:
    it stores (r, sqrt (G M / r)) under the mass and returns the
    velocities when the cache has no entry for the mass, and raises what
    [create_dataset] raises, files unchanged, when it has one. *)
Theorem blackhole_save_stores_or_raises version str r M load fs :
  blackhole 1 version str r M load true fs =
    match entry fs "..//blackhole.hdf5" "blackhole" ("Mbh" ++ str M) with
    | Some _ => (Raise (dataset_exists_error version), fs)
    | None =>
        (Return (map (fun ri => PrimFloat.sqrt (G * M / ri)) r),
         put_new fs "..//blackhole.hdf5" "blackhole" ("Mbh" ++ str M)
           (r, map (fun ri => PrimFloat.sqrt (G * M / ri)) r))
    end.
Proof.
  unfold blackhole, bind. cbv iota zeta. unfold ret at 1. cbv beta iota.
  change ("blackhole" ++ ".hdf5") with "blackhole.hdf5".
  rewrite savedata_spec by (unfold Np.sqrt; by rewrite !length_map).
  change (defaultpath ++ "/" ++ "blackhole.hdf5") with "..//blackhole.hdf5".
  change (save_group_name "blackhole") with "blackhole".
  destruct (entry fs _ _ _); [done|]. unfold ret, Np.sqrt. by rewrite map_map.
Qed.







(** [bulge] for NGC5533 with [load] on, and with both flags off. *)
Lemma bulge_load_with_h5py version str spline catalog bulge_trace
    r bpref galaxy n re save comp galdict_local fs :
  galdict catalog galaxy = Return (GalaxyDict galdict_local) ->
  upper galaxy = "NGC5533" ->
  load_group_name comp = save_group_name comp ->
  (forall x y k r', spline x y k r' <> Raise KeyError) ->
  let name := defaultpath ++ "/" ++ (comp ++ ".hdf5") in
  let key := "L" ++ str (bulge_Lb galdict_local) ++ "n" ++ str n ++ "re" ++ str re in
  let r_dat := m_radii galdict_local in
  let trace := Np.nan_to_zero (bulge_trace (bulge_Lb galdict_local) n re r_dat) in
  bulge 1 version str spline catalog bulge_trace r bpref galaxy n re true save comp fs =
    match fs !! name with
    | None => (Raise FileNotFoundError, fs)
    | Some _ =>
        match entry fs name (save_group_name comp) key with
        | Some (x, y) => (spline r_dat (Np.scale bpref y) 5%nat r, fs)
        | None =>
            if (length r =? length trace)%nat
            then (spline r_dat (Np.scale bpref trace) 5%nat r,
                  put_new fs name (save_group_name comp) key (r, trace))
            else (Raise ValueError, with_group fs name (save_group_name comp))
        end
    end.
Proof.
  intros Hgal Hup Halias Hspline name key r_dat trace.
  unfold bulge. unfold bind at 1. rewrite Hgal. cbn [lift].
  unfold ret at 1. cbv beta iota zeta.
  unfold bind at 1. cbn [fields lift]. unfold ret at 1. cbv beta iota zeta.
  rewrite Hup. cbn [String.eqb Ascii.eqb Bool.eqb]. cbv iota.
  fold key. fold r_dat. fold trace. unfold try_except, bind.
  rewrite loaddata_with_h5py. fold name. rewrite Halias.
  destruct (fs !! name) eqn:Hfs; [|done].
  destruct (entry fs name (save_group_name comp) key) as [[x y]|] eqn:E.
  - cbn -[savedata]. rewrite lift_pair.
    destruct (spline r_dat (Np.scale bpref y) 5%nat r) as [b|e] eqn:Es; [done|].
    destruct e; try done. by destruct (Hspline _ _ _ _ Es).
  - cbn -[savedata]. rewrite savedata_outcome. fold name. rewrite E.
    destruct (length r =? length trace)%nat; cbn; [by rewrite lift_pair|done].
Qed.

Lemma bulge_uncached h5py version str spline catalog bulge_trace
    r bpref galaxy n re comp galdict_local fs :
  galdict catalog galaxy = Return (GalaxyDict galdict_local) ->
  upper galaxy = "NGC5533" ->
  bulge h5py version str spline catalog bulge_trace r bpref galaxy n re false false comp fs
  = (spline (m_radii galdict_local)
       (Np.scale bpref
          (Np.nan_to_zero (bulge_trace (bulge_Lb galdict_local) n re (m_radii galdict_local))))
       5%nat r, fs).
Proof.
  intros Hgal Hup. unfold bulge. unfold bind at 1. rewrite Hgal. cbn [lift].
  unfold ret at 1. cbv beta iota zeta.
  unfold bind at 1. cbn [fields lift]. unfold ret at 1. cbv beta iota zeta.
  rewrite Hup. cbn [String.eqb Ascii.eqb Bool.eqb]. cbv iota.
  unfold bind, ret. by rewrite lift_pair.
Qed.

(** X10.  [bulge] for NGC5533 with [load] on, for a group name the two
    alias tables agree on and a spline that raises no [KeyError].  Without
    the cache file the [FileNotFoundError] of [loaddata] leaves the
    function: only [KeyError] is caught, so the file is never created from
    here.  On a hit the result is the spline through the catalog radii and
    [bpref] times the cached velocities; the cached radii are not read.
    When the file is there and the entry is not, the curve is integrated,
    stored beside [r] (h5py stores the two as one array, so they must be
    of one length) and splined. *)
Theorem bulge_with_cache version str spline catalog bulge_trace
    r bpref galaxy n re save comp galdict_local fs :
  galdict catalog galaxy = Return (GalaxyDict galdict_local) ->
  upper galaxy = "NGC5533" ->
  load_group_name comp = save_group_name comp ->
  (forall x y k r', spline x y k r' <> Raise KeyError) ->
  let name := defaultpath ++ "/" ++ (comp ++ ".hdf5") in
  let key := "L" ++ str (bulge_Lb galdict_local) ++ "n" ++ str n ++ "re" ++ str re in
  let r_dat := m_radii galdict_local in
  let trace := Np.nan_to_zero (bulge_trace (bulge_Lb galdict_local) n re r_dat) in
  let result :=
    bulge 1 version str spline catalog bulge_trace r bpref galaxy n re true save comp fs in
  match fs !! name with
  | None => result = (Raise FileNotFoundError, fs)
  | Some _ =>
      match entry fs name (save_group_name comp) key with
      | Some (x, y) => result = (spline r_dat (Np.scale bpref y) 5%nat r, fs)
      | None =>
          length r = length trace ->
          result = (spline r_dat (Np.scale bpref trace) 5%nat r,
                    put_new fs name (save_group_name comp) key (r, trace))
      end
  end.
Proof.
  intros Hgal Hup Halias Hspline name key r_dat trace result.
  pose proof (bulge_load_with_h5py version str spline catalog bulge_trace r bpref galaxy
                n re save comp galdict_local fs Hgal Hup Halias Hspline) as H.
  cbv zeta in H. fold name key r_dat trace result in H.
  destruct (fs !! name); [|exact H].
  destruct (entry fs name (save_group_name comp) key) as [[x y]|]; [exact H|].
  intros L. apply Nat.eqb_eq in L. by rewrite L in H.
Qed.

Lemma sample_spline_no_KeyError x y k r' : sample_spline x y k r' <> Raise KeyError.
Proof. unfold sample_spline. by destruct y. Qed.

Lemma bulge_with_cache_witness :
  let fs := put_new ∅ "..//bulge.hdf5" "bulge" "L1000n1000re1000" ([1; 2; 3], [4; 5; 6]) in
  bulge 1 H5py3 sample_str sample_spline sample_catalog sample_bulge_trace
    [10] 2 "NGC5533" n_c re_c true false "bulge" fs
  = (Return [8], fs).
Proof.
  intros fs.
  assert (Hgal : galdict sample_catalog "NGC5533" = Return (GalaxyDict sample_NGC5533))
    by (vm_compute; reflexivity).
  pose proof (bulge_with_cache H5py3 sample_str sample_spline sample_catalog sample_bulge_trace
                [10] 2 "NGC5533" n_c re_c false "bulge" sample_NGC5533 fs
                Hgal eq_refl eq_refl sample_spline_no_KeyError) as H.
  cbv zeta in H.
  change (defaultpath ++ "/" ++ "bulge" ++ ".hdf5") with "..//bulge.hdf5" in H.
  change (save_group_name "bulge") with "bulge" in H.
  change ("L" ++ sample_str (bulge_Lb sample_NGC5533) ++ "n" ++ sample_str n_c
            ++ "re" ++ sample_str re_c) with "L1000n1000re1000" in H.
  assert (Hf : fs !! "..//bulge.hdf5" <> None)
    by (unfold fs, put_new; by rewrite lookup_insert_eq).
  destruct (fs !! "..//bulge.hdf5"); [|done].
  unfold fs in H at 1. rewrite entry_put_new in H.
  rewrite H. reflexivity.
Defined.

(** X21.  For the bulge the cache is transparent.  A first call with
    [load] on that finds the file but not the entry does what a call with
    [save] on does; after it, every call with [load] on, at any radii and
    with any prefactor, returns what the computation without the cache
    returns, and changes no file: the stored curve is the one the
    computation makes, and the prefactor and the radii are applied after
    loading. *)
Theorem bulge_cache_is_transparent version str spline catalog bulge_trace
    r1 bpref1 r2 bpref2 galaxy n re save1 save2 comp galdict_local fs :
  galdict catalog galaxy = Return (GalaxyDict galdict_local) ->
  upper galaxy = "NGC5533" ->
  load_group_name comp = save_group_name comp ->
  (forall x y k r', spline x y k r' <> Raise KeyError) ->
  let name := defaultpath ++ "/" ++ (comp ++ ".hdf5") in
  let key := "L" ++ str (bulge_Lb galdict_local) ++ "n" ++ str n ++ "re" ++ str re in
  let trace :=
    Np.nan_to_zero (bulge_trace (bulge_Lb galdict_local) n re (m_radii galdict_local)) in
  fs !! name <> None ->
  entry fs name (save_group_name comp) key = None ->
  length r1 = length trace ->
  let first :=
    bulge 1 version str spline catalog bulge_trace r1 bpref1 galaxy n re true save1 comp fs in
  first = bulge 1 version str spline catalog bulge_trace r1 bpref1 galaxy n re false true comp fs
  /\ bulge 1 version str spline catalog bulge_trace r2 bpref2 galaxy n re true save2 comp
       (snd first)
     = bulge 1 version str spline catalog bulge_trace r2 bpref2 galaxy n re false false comp
         (snd first).
Proof.
  intros Hgal Hup Halias Hspline name key trace Hfile Hnew L first. subst first.
  rewrite (bulge_load_with_h5py version str spline catalog bulge_trace r1 bpref1 galaxy n re
             save1 comp galdict_local fs Hgal Hup Halias Hspline).
  fold name key trace. destruct (fs !! name) eqn:Hf; [|done]. rewrite Hnew.
  rewrite (proj2 (Nat.eqb_eq _ _) L). cbn [snd].
  split.
  - unfold bulge. unfold bind at 1. rewrite Hgal. cbn [lift].
    unfold ret at 1. cbv beta iota zeta.
    unfold bind at 1. cbn [fields lift]. unfold ret at 1. cbv beta iota zeta.
    rewrite Hup. cbn [String.eqb Ascii.eqb Bool.eqb]. cbv iota.
    unfold bind. rewrite (savedata_spec _ _ _ _ _ _ _ _ L). fold name key trace. rewrite Hnew.
    cbn. by rewrite lift_pair.
  - rewrite (bulge_load_with_h5py version str spline catalog bulge_trace r2 bpref2 galaxy n re
               save2 comp galdict_local _ Hgal Hup Halias Hspline).
    fold name key trace. rewrite entry_put_new.
    unfold put_new at 1. rewrite lookup_insert_eq.
    by rewrite (bulge_uncached 1 version str spline catalog bulge_trace r2 bpref2 galaxy n re
                  comp galdict_local _ Hgal Hup).
Qed.

Lemma bulge_cache_is_transparent_witness :
  let fs := put_new ∅ "..//bulge.hdf5" "bulge" "L1n2re3" ([1], [1]) in
  let first :=
    bulge 1 H5py3 sample_str sample_spline sample_catalog sample_bulge_trace
      [1; 2; 3] 1 "NGC5533" n_c re_c true false "bulge" fs in
  fst (bulge 1 H5py3 sample_str sample_spline sample_catalog sample_bulge_trace
         [10] 2 "NGC5533" n_c re_c true false "bulge" (snd first))
  = Return [0].
Proof.
  intros fs first.
  assert (Hgal : galdict sample_catalog "NGC5533" = Return (GalaxyDict sample_NGC5533))
    by (vm_compute; reflexivity).
  assert (Hfile : fs !! (defaultpath ++ "/" ++ ("bulge" ++ ".hdf5")) <> None)
    by (unfold fs, put_new; by rewrite lookup_insert_eq).
  assert (Hnew : entry fs (defaultpath ++ "/" ++ ("bulge" ++ ".hdf5")) (save_group_name "bulge")
                   ("L" ++ sample_str (bulge_Lb sample_NGC5533) ++ "n" ++ sample_str n_c
                    ++ "re" ++ sample_str re_c) = None)
    by (vm_compute; reflexivity).
  destruct (bulge_cache_is_transparent H5py3 sample_str sample_spline sample_catalog
              sample_bulge_trace [1; 2; 3] 1 [10] 2 "NGC5533" n_c re_c false false "bulge"
              sample_NGC5533 fs Hgal eq_refl eq_refl sample_spline_no_KeyError
              Hfile Hnew eq_refl) as [_ H2].
  fold first in H2. rewrite H2.
  rewrite (bulge_uncached 1 H5py3 sample_str sample_spline sample_catalog sample_bulge_trace
             [10] 2 "NGC5533" n_c re_c "bulge" sample_NGC5533 _ Hgal eq_refl).
  reflexivity.
Defined.

(** X11.  [galdict] accepts a name in any case and with spaces, the
    traced components do not: [disk], [gas] and [bulge] compare
    [galaxy.upper()], spaces included, with the two names they know.  For
    every other spelling, and every other name, they raise: the
    [KeyError] of [galdict] when the module has no such name,
    [TypeError] when the name is that of the constant [G], which
    [galdict] returns and the component then subscripts, and
    [UnboundLocalError] when the catalog has the galaxy. *)
Theorem traced_components_need_exact_name h5py version str spline catalog bulge_trace
    r pref galaxy n re load save comp fs :
  upper galaxy <> "NGC7814" -> upper galaxy <> "NGC5533" ->
  let missing :=
    match galdict catalog galaxy with
    | Return (GalaxyDict _) => Raise UnboundLocalError
    | Return (Constant _) => Raise TypeError
    | Raise e => Raise e
    end in
  disk spline catalog r pref galaxy = missing
  /\ gas spline catalog r pref galaxy = missing
  /\ bulge h5py version str spline catalog bulge_trace r pref galaxy n re load save comp fs
     = (missing, fs).
Proof.
  intros H1 H2 missing. subst missing.
  apply String.eqb_neq in H1, H2.
  unfold disk, gas, bulge, bind.
  destruct (galdict catalog galaxy) as [[g|x]|e]; cbn [lift fields]; unfold ret, raise;
    rewrite ?H1, ?H2; repeat split.
Qed.

Lemma traced_components_need_exact_name_witness :
  galdict sample_catalog "NGC 5533" = Return (GalaxyDict sample_NGC5533)
  /\ disk sample_spline sample_catalog [10] 1 "NGC 5533" = Raise UnboundLocalError
  /\ galdict sample_catalog "g" = Return (Constant G)
  /\ disk sample_spline sample_catalog [10] 1 "g" = Raise TypeError.
Proof.
  assert (Hgal : galdict sample_catalog "NGC 5533" = Return (GalaxyDict sample_NGC5533))
    by (vm_compute; reflexivity).
  assert (HG : galdict sample_catalog "g" = Return (Constant G))
    by (vm_compute; reflexivity).
  split; [exact Hgal|]. split; [|split; [exact HG|]].
  - destruct (traced_components_need_exact_name 1 H5py3 sample_str sample_spline
                sample_catalog sample_bulge_trace [10] 1 "NGC 5533" n_c re_c true false
                "bulge" ∅ ltac:(discriminate) ltac:(discriminate)) as (Hd & _ & _).
    rewrite Hd, Hgal. reflexivity.
  - destruct (traced_components_need_exact_name 1 H5py3 sample_str sample_spline
                sample_catalog sample_bulge_trace [10] 1 "g" n_c re_c true false
                "bulge" ∅ ltac:(discriminate) ltac:(discriminate)) as (Hd & _ & _).
    rewrite Hd, HG. reflexivity.
Defined.

Lemma ascii_upper_lower c : ascii_upper (ascii_lower c) = ascii_upper c.
Proof. destruct c as [[] [] [] [] [] [] [] []]; vm_compute; reflexivity. Qed.

Lemma ascii_upper_upper c : ascii_upper (ascii_upper c) = ascii_upper c.
Proof. destruct c as [[] [] [] [] [] [] [] []]; vm_compute; reflexivity. Qed.

Lemma upper_lower s : upper (lower s) = upper s.
Proof. induction s as [|c s IH]; cbn; [done|]. by rewrite ascii_upper_lower, IH. Qed.

Lemma upper_upper s : upper (upper s) = upper s.
Proof. induction s as [|c s IH]; cbn; [done|]. by rewrite ascii_upper_upper, IH. Qed.

Lemma upper_app s t : upper (s ++ t) = upper s ++ upper t.
Proof. induction s as [|c s IH]; simpl; [done|]. rewrite IH. reflexivity. Qed.

Lemma strip_spaces_app s t : strip_spaces (s ++ t) = strip_spaces s ++ strip_spaces t.
Proof.
  induction s as [|c s IH]; simpl; [done|].
  destruct (Ascii.eqb c " "); [exact IH|]. rewrite IH. reflexivity.
Qed.

(** X12.  [galdict] is blind to case and to spaces: lower-casing or
    upper-casing the name, or putting a space anywhere in it, gives the
    same record or the same [KeyError]. *)
Theorem galdict_ignores_case_and_spaces catalog :
  (forall galaxy, galdict catalog (lower galaxy) = galdict catalog galaxy)
  /\ (forall galaxy, galdict catalog (upper galaxy) = galdict catalog galaxy)
  /\ (forall front back,
        galdict catalog (front ++ " " ++ back) = galdict catalog (front ++ back)).
Proof.
  unfold galdict. split; [|split].
  - intros g. by rewrite upper_lower.
  - intros g. by rewrite upper_upper.
  - intros s t. by rewrite !upper_app, !strip_spaces_app.
Qed.

(** ** More on the combiner *)

Lemma totalvelocity_miniBH_is_quadrature_sum_witness :
  exists v,
    fst (totalvelocity_miniBH 1 H5py3 sample_str sample_arctan sample_pow sample_spline
           sample_catalog sample_bulge_trace
           [1; 2] 1 1000 100 1.4 1 1 1 1000 "NGC5533" ∅) = Return v
    /\ length v = 2%nat.
Proof.
  eexists. split.
  - exact (totalvelocity_miniBH_is_quadrature_sum 1 H5py3 sample_str sample_arctan sample_pow
             sample_spline sample_catalog sample_bulge_trace sample_spline_shape
             [1; 2] 1 1000 100 1.4 1 1 1 1000 "NGC5533" ∅).
  - reflexivity.
Defined.

(** The files after the five tasks and the sum are the files after the
    five components, run in the order of the list. *)
Lemma combiner_files t1 t2 t3 t4 t5 r fs :
  snd ((do components_squared <-
          Parallel [ _compute_component_parallel t1 r; _compute_component_parallel t2 r;
                     _compute_component_parallel t3 r; _compute_component_parallel t4 r;
                     _compute_component_parallel t5 r ];
        sqrt_sum components_squared) fs)
  = snd (t5 (snd (t4 (snd (t3 (snd (t2 (snd (t1 fs))))))))).
Proof.
  assert (H : forall t fs0, exists cs,
             _compute_component_parallel t r fs0 = (Return cs, snd (t fs0))).
  { intros t fs0. unfold _compute_component_parallel.
    destruct (t fs0) as [[u|e] fs']; eauto. }
  unfold bind at 1. cbn [Parallel]. unfold bind, ret.
  destruct (H t1 fs) as [c1 ->].
  destruct (H t2 (snd (t1 fs))) as [c2 ->].
  destruct (H t3 (snd (t2 (snd (t1 fs))))) as [c3 ->].
  destruct (H t4 (snd (t3 (snd (t2 (snd (t1 fs))))))) as [c4 ->].
  destruct (H t5 (snd (t4 (snd (t3 (snd (t2 (snd (t1 fs))))))))) as [c5 ->].
  unfold sqrt_sum. by destruct (Components.sum _).
Qed.

Lemma blackhole_without_h5py_files version str r M load save fs :
  snd (blackhole 0 version str r M load save fs) = fs.
Proof.
  destruct save; [by rewrite blackhole_save_without_h5py|].
  destruct load; [|by rewrite blackhole_flags_off].
  reflexivity.
Qed.

Lemma h_viso_without_h5py_files version str arctan pow spline traceback_bound
    r rc rho00 load save comp fs :
  snd (h_viso 0 version str arctan pow spline traceback_bound r rc rho00 load save comp fs)
  = fs.
Proof.
  destruct load.
  - rewrite h_viso_load_without_h5py. by destruct traceback_bound.
  - unfold h_viso. cbv iota zeta. destruct save; [|done].
    unfold bind. by rewrite savedata_without_h5py.
Qed.

Lemma bulge_without_h5py_files version str spline catalog bulge_trace
    r bpref galaxy n re load save comp fs :
  snd (bulge 0 version str spline catalog bulge_trace r bpref galaxy n re load save comp fs)
  = fs.
Proof.
  unfold bulge. unfold bind at 1.
  destruct (galdict catalog galaxy) as [[g|x]|e]; cbn [lift]; [| |done].
  2: { unfold ret at 1. cbv beta iota zeta. unfold bind at 1. by cbn [fields lift]. }
  unfold ret at 1. cbv beta iota zeta.
  unfold bind at 1. cbn [fields lift]. unfold ret at 1. cbv beta iota zeta.
  destruct (String.eqb (upper galaxy) "NGC7814").
  { unfold bind. rewrite lift_pair. destruct (item (bulge_v g)); [|done].
    by rewrite lift_pair. }
  destruct (String.eqb (upper galaxy) "NGC5533"); [|done].
  destruct load; [reflexivity|].
  destruct save; unfold bind.
  - rewrite savedata_without_h5py. cbn. by rewrite lift_pair.
  - cbn. by rewrite lift_pair.
Qed.

(** X15.  Without h5py nothing is ever written: [savedata], the three
    cached components with any flags, and both totals leave every file as
    it was. *)
Theorem without_h5py_nothing_is_written version str arctan pow spline traceback_bound
    catalog bulge_trace fs :
  (forall xvalues yvalues group dset path file,
     snd (savedata 0 version xvalues yvalues group dset path file fs) = fs)
  /\ (forall r M load save, snd (blackhole 0 version str r M load save fs) = fs)
  /\ (forall r rc rho00 load save comp,
        snd (h_viso 0 version str arctan pow spline traceback_bound
               r rc rho00 load save comp fs) = fs)
  /\ (forall r bpref galaxy n re load save comp,
        snd (bulge 0 version str spline catalog bulge_trace
               r bpref galaxy n re load save comp fs) = fs)
  /\ (forall r scale arraysize rho00 rcut bpref dpref gpref Mbh galaxy,
        snd (totalvelocity_halo 0 version str arctan pow spline traceback_bound catalog
               bulge_trace r scale arraysize rho00 rcut bpref dpref gpref Mbh galaxy fs) = fs)
  /\ (forall r scale arraysize massMiniBH rcut bpref dpref gpref Mbh galaxy,
        snd (totalvelocity_miniBH 0 version str arctan pow spline catalog
               bulge_trace r scale arraysize massMiniBH rcut bpref dpref gpref Mbh galaxy fs)
        = fs).
Proof.
  assert (Hl : forall (o : outcome (list float)) fs0, snd (lift o fs0) = fs0)
    by (intros o fs0; by rewrite lift_pair).
  split; [intros; by rewrite savedata_without_h5py|].
  split; [intros; apply blackhole_without_h5py_files|].
  split; [intros; apply h_viso_without_h5py_files|].
  split; [intros; apply bulge_without_h5py_files|].
  split; intros.
  - unfold totalvelocity_halo. rewrite combiner_files.
    rewrite blackhole_without_h5py_files, bulge_without_h5py_files, Hl.
    unfold halo. by rewrite h_viso_without_h5py_files, Hl.
  - unfold totalvelocity_miniBH. rewrite combiner_files.
    by rewrite blackhole_without_h5py_files, bulge_without_h5py_files, !Hl.
Qed.





(** A cached component leaves the files as they were or as one
    [savedata] on its own entry leaves them. *)
Lemma blackhole_files h5py version str r M load save fs :
  snd (blackhole h5py version str r M load save fs) = fs
  \/ exists a,
       snd (blackhole h5py version str r M load save fs)
       = snd (savedata h5py version r a "blackhole" ("Mbh" ++ str M) defaultpath
                "blackhole.hdf5" fs).
Proof.
  unfold blackhole. cbv zeta.
  set (a := Np.sqrt (map (fun ri => G * M / ri) r)). unfold bind, try_except.
  change ("blackhole" ++ ".hdf5") with "blackhole.hdf5".
  assert (Hs : forall fs0 : filesystem,
    snd (let (o, fs') := savedata h5py version r a "blackhole" ("Mbh" ++ str M)
                           defaultpath "blackhole.hdf5" fs0 in
         match o with
         | Return _ => ret a fs'
         | Raise e => (Raise e, fs')
         end)
    = snd (savedata h5py version r a "blackhole" ("Mbh" ++ str M) defaultpath
             "blackhole.hdf5" fs0)).
  { intros fs0. by destruct (savedata _ _ _ _ _ _ _ _ _) as [[] ?]. }
  destruct save; cbn -[savedata loaddata]; [right; exists a; apply Hs|].
  destruct load; cbn -[savedata loaddata]; [|by left].
  pose proof (loaddata_read_only h5py "blackhole" ("Mbh" ++ str M) defaultpath
                "blackhole.hdf5" fs) as Hl.
  destruct (loaddata h5py "blackhole" ("Mbh" ++ str M) defaultpath "blackhole.hdf5" fs)
    as [[l|e] fs1] eqn:El; cbn [snd] in Hl; subst fs1; cbn -[savedata loaddata].
  - destruct l as [[x y]|n]; cbn -[savedata loaddata].
    + rewrite El. cbn. by left.
    + by left.
  - destruct e; cbn -[savedata loaddata]; try (by left); right; exists a; apply Hs.
Qed.

Lemma h_viso_files h5py version str arctan pow spline traceback_bound
    r rc rho00 load save comp fs :
  snd (h_viso h5py version str arctan pow spline traceback_bound r rc rho00 load save comp fs)
  = fs
  \/ exists a,
       snd (h_viso h5py version str arctan pow spline traceback_bound
              r rc rho00 load save comp fs)
       = snd (savedata h5py version r a comp ("rc" ++ str rc ++ "rho00" ++ str rho00)
                defaultpath (comp ++ ".hdf5") fs).
Proof.
  unfold h_viso. cbv zeta.
  set (a := h_viso_array arctan pow r rc rho00).
  set (key := "rc" ++ str rc ++ "rho00" ++ str rho00).
  unfold bind.
  assert (Hs : forall fs0 : filesystem,
    snd (let (o, fs') := savedata h5py version r a comp key defaultpath (comp ++ ".hdf5") fs0 in
         match o with
         | Return _ => ret a fs'
         | Raise e => (Raise e, fs')
         end)
    = snd (savedata h5py version r a comp key defaultpath (comp ++ ".hdf5") fs0)).
  { intros fs0. by destruct (savedata _ _ _ _ _ _ _ _ _) as [[] ?]. }
  destruct load; cbn -[savedata loaddata].
  2: { destruct save; [right; exists a; apply Hs|by left]. }
  pose proof (loaddata_read_only h5py comp key defaultpath (comp ++ ".hdf5") fs) as Hl.
  destruct (loaddata h5py comp key defaultpath (comp ++ ".hdf5") fs)
    as [[l|e] fs1] eqn:El; cbn [snd] in Hl; subst fs1; cbn -[savedata loaddata].
  - destruct l as [[x y]|n]; cbn -[savedata loaddata].
    + rewrite El. cbn -[savedata loaddata].
      destruct (spline x y 5%nat r) as [b|e]; cbn -[savedata loaddata]; [by left|].
      destruct e, traceback_bound; cbn -[savedata loaddata];
        try (by left); right; exists a; apply Hs.
    + destruct traceback_bound; [right; exists a; apply Hs|by left].
  - destruct e, traceback_bound; cbn -[savedata loaddata];
      try (by left); right; exists a; apply Hs.
Qed.

Lemma bulge_files h5py version str spline catalog bulge_trace
    r bpref galaxy n re load save comp fs (P : filesystem -> Prop) :
  P fs ->
  (forall galdict_local y,
     galdict catalog galaxy = Return (GalaxyDict galdict_local) ->
     P (snd (savedata h5py version r y comp
               ("L" ++ str (bulge_Lb galdict_local) ++ "n" ++ str n ++ "re" ++ str re)
               defaultpath (comp ++ ".hdf5") fs))) ->
  P (snd (bulge h5py version str spline catalog bulge_trace
            r bpref galaxy n re load save comp fs)).
Proof.
  intros H0 H1. unfold bulge. unfold bind at 1.
  destruct (galdict catalog galaxy) as [[g|x]|e] eqn:Hgal; cbn [lift]; [| |exact H0].
  2: { unfold ret at 1. cbv beta iota zeta. unfold bind at 1. cbn [fields lift]. exact H0. }
  unfold ret at 1. cbv beta iota zeta.
  unfold bind at 1. cbn [fields lift]. unfold ret at 1. cbv beta iota zeta.
  set (key := "L" ++ str (bulge_Lb g) ++ "n" ++ str n ++ "re" ++ str re).
  set (y := Np.nan_to_zero (bulge_trace (bulge_Lb g) n re (m_radii g))).
  assert (Hs : forall fs0 : filesystem,
    snd ((do _ <- (do _ <- savedata h5py version r y comp key defaultpath (comp ++ ".hdf5");
                   ret tt);
          lift (spline (m_radii g) (Np.scale bpref y) 5%nat r)) fs0)
    = snd (savedata h5py version r y comp key defaultpath (comp ++ ".hdf5") fs0)).
  { intros fs0. unfold bind.
    destruct (savedata _ _ _ _ _ _ _ _ _) as [[] ?]; cbn; by rewrite ?lift_pair. }
  specialize (H1 g y eq_refl). fold key in H1.
  destruct (String.eqb (upper galaxy) "NGC7814").
  { unfold bind. rewrite lift_pair. destruct (item (bulge_v g)); [|exact H0].
    by rewrite lift_pair. }
  destruct (String.eqb (upper galaxy) "NGC5533"); [|exact H0].
  destruct load.
  2: { destruct save; [by rewrite Hs|]. unfold bind. cbn. by rewrite lift_pair. }
  unfold try_except. unfold bind at 1 2 3.
  pose proof (loaddata_read_only h5py comp key defaultpath (comp ++ ".hdf5") fs) as Hl.
  destruct (loaddata h5py comp key defaultpath (comp ++ ".hdf5") fs)
    as [[l|e] fs1] eqn:El; cbn [snd] in Hl; subst fs1.
  - destruct l as [[x0 y0]|k]; cbn [getitem]; unfold ret at 1, raise at 1; [|exact H0].
    rewrite lift_pair.
    destruct (spline (m_radii g) (Np.scale bpref y0) 5%nat r) as [b|e]; [exact H0|].
    destruct e; try exact H0. rewrite <- (Hs fs) in H1. exact H1.
  - destruct e; try exact H0. rewrite <- (Hs fs) in H1. exact H1.
Qed.

(** X23.  Each cached component writes, if at all, its own entry only:
    [blackhole] the one for its mass in blackhole.hdf5, [h_viso] the one
    for [rc] and [rho00] in the file of [comp], [bulge] the one for the
    luminosity, [n] and [re].  Every other entry of every file holds after
    the call what it held before; and a total velocity can touch nothing
    but the bulge entry. *)
Theorem components_write_only_their_own_entry h5py version str arctan pow spline
    traceback_bound catalog bulge_trace fs name' group' dset' :
  (forall r M load save,
     (name', group', dset') <> ("..//blackhole.hdf5", "blackhole", "Mbh" ++ str M) ->
     entry (snd (blackhole h5py version str r M load save fs)) name' group' dset'
     = entry fs name' group' dset')
  /\ (forall r rc rho00 load save comp,
        (name', group', dset')
        <> (defaultpath ++ "/" ++ (comp ++ ".hdf5"), save_group_name comp,
            "rc" ++ str rc ++ "rho00" ++ str rho00) ->
        entry (snd (h_viso h5py version str arctan pow spline traceback_bound
                      r rc rho00 load save comp fs)) name' group' dset'
        = entry fs name' group' dset')
  /\ (forall r bpref galaxy n re load save comp,
        (forall galdict_local,
           galdict catalog galaxy = Return (GalaxyDict galdict_local) ->
           (name', group', dset')
           <> (defaultpath ++ "/" ++ (comp ++ ".hdf5"), save_group_name comp,
               "L" ++ str (bulge_Lb galdict_local) ++ "n" ++ str n ++ "re" ++ str re)) ->
        entry (snd (bulge h5py version str spline catalog bulge_trace
                      r bpref galaxy n re load save comp fs)) name' group' dset'
        = entry fs name' group' dset')
  /\ (forall r scale arraysize rho00 rcut bpref dpref gpref Mbh galaxy,
        (forall galdict_local,
           galdict catalog galaxy = Return (GalaxyDict galdict_local) ->
           (name', group', dset')
           <> ("..//bulge.hdf5", "bulge",
               "L" ++ str (bulge_Lb galdict_local) ++ "n" ++ str n_c ++ "re" ++ str re_c)) ->
        entry (snd (totalvelocity_halo h5py version str arctan pow spline traceback_bound
                      catalog bulge_trace r scale arraysize rho00 rcut bpref dpref gpref Mbh
                      galaxy fs)) name' group' dset'
        = entry fs name' group' dset')
  /\ (forall r scale arraysize massMiniBH rcut bpref dpref gpref Mbh galaxy,
        (forall galdict_local,
           galdict catalog galaxy = Return (GalaxyDict galdict_local) ->
           (name', group', dset')
           <> ("..//bulge.hdf5", "bulge",
               "L" ++ str (bulge_Lb galdict_local) ++ "n" ++ str n_c ++ "re" ++ str re_c)) ->
        entry (snd (totalvelocity_miniBH h5py version str arctan pow spline
                      catalog bulge_trace r scale arraysize massMiniBH rcut bpref dpref gpref
                      Mbh galaxy fs)) name' group' dset'
        = entry fs name' group' dset').
Proof.
  assert (Hframe : forall x y group dset path file,
    (name', group', dset') <> (path ++ "/" ++ file, save_group_name group, dset) ->
    entry (snd (savedata h5py version x y group dset path file fs)) name' group' dset'
    = entry fs name' group' dset').
  { intros x y group dset path file Hne. destruct (decide (h5py = 1%Z)) as [->|H1].
    - rewrite savedata_outcome.
      destruct (length x =? length y)%nat; [|apply entry_with_group].
      destruct (entry fs _ _ dset); cbn [snd]; [done|].
      by apply entry_put_new_ne.
    - by rewrite savedata_unavailable. }
  assert (Hbulge : forall r bpref galaxy n re load save comp,
    (forall galdict_local,
       galdict catalog galaxy = Return (GalaxyDict galdict_local) ->
       (name', group', dset')
       <> (defaultpath ++ "/" ++ (comp ++ ".hdf5"), save_group_name comp,
           "L" ++ str (bulge_Lb galdict_local) ++ "n" ++ str n ++ "re" ++ str re)) ->
    entry (snd (bulge h5py version str spline catalog bulge_trace
                  r bpref galaxy n re load save comp fs)) name' group' dset'
    = entry fs name' group' dset').
  { intros r bpref galaxy n re load save comp Hne.
    apply bulge_files; [done|]. intros g y Hgal. apply Hframe, Hne, Hgal. }
  assert (Hl : forall (o : outcome (list float)) fs0, snd (lift o fs0) = fs0)
    by (intros o fs0; by rewrite lift_pair).
  split.
  { intros r M load save Hne.
    destruct (blackhole_files h5py version str r M load save fs) as [-> | [a ->]]; [done|].
    by apply Hframe. }
  split.
  { intros r rc rho00 load save comp Hne.
    destruct (h_viso_files h5py version str arctan pow spline traceback_bound
                r rc rho00 load save comp fs) as [-> | [a ->]]; [done|].
    by apply Hframe. }
  split; [exact Hbulge|].
  split.
  - intros r scale arraysize rho00 rcut bpref dpref gpref Mbh galaxy Hne.
    unfold totalvelocity_halo. rewrite combiner_files.
    rewrite blackhole_flags_off. cbn [snd]. rewrite !Hl.
    rewrite halo_returns. cbn [snd].
    by apply Hbulge.
  - intros r scale arraysize massMiniBH rcut bpref dpref gpref Mbh galaxy Hne.
    unfold totalvelocity_miniBH. rewrite combiner_files.
    rewrite blackhole_flags_off. cbn [snd]. rewrite !Hl.
    by apply Hbulge.
Qed.

(** ** More on the parameter sets *)

Lemma names_add pars name p :
  map fst (add pars name p)
  = if str_in name (map fst pars) then map fst pars else (map fst pars ++ [name])%list.
Proof.
  unfold str_in. induction pars as [|[n q] pars IH]; cbn; [done|].
  rewrite (String.eqb_sym name n).
  destruct (String.eqb n name); cbn; [done|]. rewrite IH.
  by destruct (existsb _ _).
Qed.

(** X16.  What [set_params] does, in full.  A model that is neither a
    function nor an [lm.Model] is refused with [ValueError] before the
    galaxy is looked at.  Otherwise a name the module does not define is
    a [KeyError], the name of the constant [G] a [TypeError], and for a
    galaxy of the catalog the call returns.  The rows returned are those
    [make_params] made for the function and the six [set_params] sets,
    and every row that is not one of the six is as [make_params] left it:
    the halo rows are never set here, whatever the model.  For a function
    with the signature of [h_viso], say, the rows rc and rho00 keep the
    defaults of the signature, and load, save and comp have no row. *)
Theorem set_params_outcome catalog model galaxy :
  match model with
  | PyFunction f | PyModel f =>
      match galdict catalog galaxy with
      | Raise e => set_params catalog model galaxy = Raise KeyError
      | Return (Constant _) => set_params catalog model galaxy = Raise TypeError
      | Return (GalaxyDict galdict_local) =>
          exists fit_pars,
            set_params catalog model galaxy = Return fit_pars
            /\ (forall name,
                  ~ In name ["scale"; "rcut"; "bpref"; "dpref"; "gpref"; "Mbh"] ->
                  lookup fit_pars name = lookup (make_params f) name)
            /\ (forall name,
                  lookup fit_pars name <> None <->
                  lookup (make_params f) name <> None
                  \/ In name ["scale"; "rcut"; "bpref"; "dpref"; "gpref"; "Mbh"])
      end
  | PyStr _ | PyOther => set_params catalog model galaxy = Raise ValueError
  end
  /\ (let like_h_viso :=
        Flambda [("rc", NumericDefault 1.4); ("rho00", NumericDefault 0.31e9);
                 ("load", OtherDefault); ("save", OtherDefault); ("comp", OtherDefault)] in
      exists fit_pars,
        set_params sample_catalog (PyFunction like_h_viso) "NGC5533" = Return fit_pars
        /\ map fst fit_pars = ["rc"; "rho00"; "scale"; "rcut"; "bpref"; "dpref"; "gpref"; "Mbh"]
        /\ lookup fit_pars "rc"
           = Some {| value := 1.4; vary := true; min := neg_infinity; max := infinity |}
        /\ lookup fit_pars "load" = None).
Proof.
  split; [|eexists; repeat split; vm_compute; reflexivity].
  assert (K : forall f galdict_local,
    galdict catalog galaxy = Return (GalaxyDict galdict_local) ->
    exists fit_pars,
      set_params catalog (PyModel f) galaxy = Return fit_pars
      /\ (forall name,
            ~ In name ["scale"; "rcut"; "bpref"; "dpref"; "gpref"; "Mbh"] ->
            lookup fit_pars name = lookup (make_params f) name)
      /\ (forall name,
            lookup fit_pars name <> None <->
            lookup (make_params f) name <> None
            \/ In name ["scale"; "rcut"; "bpref"; "dpref"; "gpref"; "Mbh"])).
  { intros f g Hgal. unfold set_params. rewrite Hgal. cbn [fields]. rewrite add_halo_Model.
    unfold item.
    destruct (blackhole_Mbh g) as [Mbh|];
      [destruct (PrimFloat.eqb Mbh 0); cbn [negb]|].
    all: eexists; split; [reflexivity|].
    all: match goal with
         | |- (forall name, _ -> lookup ?res name = _) /\ _ =>
             assert (Hout : forall name,
               ~ In name ["scale"; "rcut"; "bpref"; "dpref"; "gpref"; "Mbh"] ->
               lookup res name = lookup (make_params f) name)
               by (intros name Hn; cbn in Hn;
                   rewrite !lookup_add_ne by (intros ->; tauto); reflexivity)
         end.
    all: split; [exact Hout|].
    all: intros name.
    all: destruct (In_dec string_dec name ["scale"; "rcut"; "bpref"; "dpref"; "gpref"; "Mbh"])
           as [Hn|Hn];
         [split; [by right|]; intros _; cbn in Hn;
          decompose [or] Hn; try contradiction; subst name; lookup_added; discriminate
         |rewrite (Hout name Hn); split; [by left|]; by intros [?|?]]. }
  destruct model as [s|f|f|]; try reflexivity.
  - destruct (galdict catalog galaxy) as [[g|x]|e] eqn:Hgal.
    + exact (K f g eq_refl).
    + unfold set_params. by rewrite Hgal.
    + unfold set_params. rewrite Hgal. unfold galdict in Hgal.
      destruct (globals catalog !! _); by simplify_eq.
  - destruct (galdict catalog galaxy) as [[g|x]|e] eqn:Hgal.
    + exact (K f g eq_refl).
    + unfold set_params. by rewrite Hgal.
    + unfold set_params. rewrite Hgal. unfold galdict in Hgal.
      destruct (globals catalog !! _); by simplify_eq.
Qed.

(** X17.  What [bestfit] hands to the fit, for a galaxy of the catalog.
    The rows are exactly the eight arguments of its lambda, in that
    order.  The halo rows follow the model as passed: the tag 'bh' or the
    function [totalvelocity_miniBH] give 50 in [1, 100] and 1.5 from 0;
    the tag 'wimp' or the function [totalvelocity_halo] give arraysize
    fixed at 0 and rho0 free from the catalog value; anything else, an
    [lm.Model] included, leaves both rows unset.  The weights are 1 over
    the errors unless the model is the function [totalvelocity_halo]
    itself and the galaxy has a band: the tag 'wimp' gets the halo rows
    but not the band. *)
Theorem bestfit_setup_rows catalog model galaxy galdict_local :
  galdict catalog galaxy = Return (GalaxyDict galdict_local) ->
  let unset := {| value := neg_infinity; vary := true;
                  min := neg_infinity; max := infinity |} in
  let plain := map (fun e => 1 / e) (m_v_errors galdict_local) in
  exists fit_pars,
    bestfit_setup catalog model galaxy
    = match weights model galdict_local with
      | Return w => Return (fit_pars, w)
      | Raise e => Raise e
      end
    /\ map fst fit_pars
       = ["scale"; "arraysize"; "rho0"; "rcut"; "bpref"; "dpref"; "gpref"; "Mbh"]
    /\ lookup fit_pars "scale" = Some (fixed (rho0 galdict_local))
    /\ (model = PyStr "bh" \/ model = PyFunction Ftotalvelocity_miniBH ->
        lookup fit_pars "arraysize" = Some (free 50 1 100)
        /\ lookup fit_pars "rho0" = Some (free 1.5 0 infinity))
    /\ (model = PyStr "wimp" \/ model = PyFunction Ftotalvelocity_halo ->
        lookup fit_pars "arraysize" = Some (fixed 0)
        /\ lookup fit_pars "rho0" = Some (free (rho0 galdict_local) 0 infinity))
    /\ (model <> PyStr "bh" -> model <> PyFunction Ftotalvelocity_miniBH ->
        model <> PyStr "wimp" -> model <> PyFunction Ftotalvelocity_halo ->
        lookup fit_pars "arraysize" = Some unset /\ lookup fit_pars "rho0" = Some unset)
    /\ (model <> PyFunction Ftotalvelocity_halo ->
        weights model galdict_local = Return plain)
    /\ (n_v_bandwidth galdict_local = None -> weights model galdict_local = Return plain).
Proof.
  intros Hgal unset plain.
  unfold bestfit_setup, set_params. rewrite Hgal. cbn [fields]. rewrite add_halo_Model.
  eexists. split; [reflexivity|].
  match goal with |- context [add_halo model galdict_local ?b] => set (base := b) end.
  assert (Hn : map fst base
               = ["scale"; "arraysize"; "rho0"; "rcut"; "bpref"; "dpref"; "gpref"; "Mbh"]
               /\ lookup base "scale" = Some (fixed (rho0 galdict_local))
               /\ lookup base "arraysize" = Some unset
               /\ lookup base "rho0" = Some unset).
  { subst base. unfold item.
    destruct (blackhole_Mbh galdict_local) as [Mbh|];
      [destruct (PrimFloat.eqb Mbh 0); cbn [negb]|]; repeat split. }
  destruct Hn as (Hn & Hs & Ha & Hr). clearbody base.
  assert (E1 : eq_str model "bh" || eq_new_Model model Ftotalvelocity_miniBH
               || eq_function model Ftotalvelocity_miniBH = true
               <-> model = PyStr "bh" \/ model = PyFunction Ftotalvelocity_miniBH).
  { destruct model as [s|[]|?|]; cbn; rewrite ?orb_false_r, ?String.eqb_eq;
      split; try done; try (intros [?|?]; congruence); try (by right).
    intros ->. by left. }
  assert (E2 : eq_str model "wimp" || eq_new_Model model Ftotalvelocity_halo
               || eq_function model Ftotalvelocity_halo = true
               <-> model = PyStr "wimp" \/ model = PyFunction Ftotalvelocity_halo).
  { destruct model as [s|[]|?|]; cbn; rewrite ?orb_false_r, ?String.eqb_eq;
      split; try done; try (intros [?|?]; congruence); try (by right).
    intros ->. by left. }
  unfold add_halo.
  destruct (eq_str model "bh" || eq_new_Model model Ftotalvelocity_miniBH
            || eq_function model Ftotalvelocity_miniBH) eqn:B1;
    [|destruct (eq_str model "wimp" || eq_new_Model model Ftotalvelocity_halo
                || eq_function model Ftotalvelocity_halo) eqn:B2].
  - split; [rewrite !names_add, Hn; reflexivity|].
    split; [by rewrite !lookup_add_ne|].
    split; [intros _; split; by lookup_added|].
    split.
    { intros Hw. apply proj1 in E1. specialize (E1 eq_refl).
      destruct E1 as [->| ->], Hw as [?|?]; congruence. }
    split.
    { intros N1 N2. apply proj1 in E1. destruct (E1 eq_refl); congruence. }
    split.
    + intros N. unfold weights. destruct model as [s|[]|?|]; try reflexivity; congruence.
    + intros Hb. unfold weights. rewrite Hb. cbn. by destruct (eq_function model Ftotalvelocity_halo).
  - split; [rewrite !names_add, Hn; reflexivity|].
    split; [by rewrite !lookup_add_ne|].
    split.
    { intros Hw. apply proj2 in E1. specialize (E1 Hw). congruence. }
    split; [intros _; split; by lookup_added|].
    split.
    { intros N1 N2 N3 N4. apply proj1 in E2. destruct (E2 eq_refl); congruence. }
    split.
    + intros N. unfold weights. destruct model as [s|[]|?|]; try reflexivity; congruence.
    + intros Hb. unfold weights. rewrite Hb. cbn. by destruct (eq_function model Ftotalvelocity_halo).
  - split; [exact Hn|]. split; [exact Hs|].
    split.
    { intros Hw. apply proj2 in E1. specialize (E1 Hw). congruence. }
    split.
    { intros Hw. apply proj2 in E2. specialize (E2 Hw). congruence. }
    split; [done|].
    split.
    + intros N. unfold weights. destruct model as [s|[]|?|]; try reflexivity; congruence.
    + intros Hb. unfold weights. rewrite Hb. cbn. by destruct (eq_function model Ftotalvelocity_halo).
Qed.

Lemma bestfit_setup_rows_witness :
  exists fit_pars,
    bestfit_setup sample_catalog (PyStr "wimp") "NGC5533"
    = Return (fit_pars, [0.2; 0.2; 0.2])
    /\ lookup fit_pars "rho0" = Some (free 0.31e9 0 infinity).
Proof.
  destruct (bestfit_setup_rows sample_catalog (PyStr "wimp") "NGC5533" sample_NGC5533
              eq_refl) as (fit_pars & E & _ & _ & _ & Hw & _ & Hplain & _).
  exists fit_pars. split.
  - rewrite E, (Hplain ltac:(discriminate)). vm_compute. reflexivity.
  - exact (proj2 (Hw (or_introl eq_refl))).
Defined.

(** ** Signs *)



(** ** The point-mass halo *)





(** ** The widget *)

(** X19.  The range functions of the widget answer to the same
    spellings, '5533' and '7814' and, blind to case and spaces, 'NGC5533'
    and 'NGC7814'.  For those each slider gets a starting value inside its
    bounds: minimum <= default <= maximum for the number of black holes
    and for the cutoff radius.  For every other galaxy all five functions
    return [None]. *)
Theorem slider_ranges galaxy :
  if widget_knows galaxy then
    exists lo start hi rstart rhi,
      minnumberBH galaxy = Some lo /\ defaultnumber galaxy = Some start
      /\ maxnumberBH galaxy = Some hi
      /\ defaultrcutBH galaxy = Some rstart /\ maxrcutBH galaxy = Some rhi
      /\ PrimFloat.leb (to_float lo) (to_float start) = true
      /\ PrimFloat.leb (to_float start) (to_float hi) = true
      /\ PrimFloat.leb minrcutBH (to_float rstart) = true
      /\ PrimFloat.leb (to_float rstart) (to_float rhi) = true
  else
    minnumberBH galaxy = None /\ defaultnumber galaxy = None /\ maxnumberBH galaxy = None
    /\ defaultrcutBH galaxy = None /\ maxrcutBH galaxy = None.
Proof.
  unfold widget_knows, str_in, minnumberBH, defaultnumber, maxnumberBH,
    defaultrcutBH, maxrcutBH. cbn [existsb].
  destruct (String.eqb galaxy "5533"), (String.eqb galaxy "7814"),
    (String.eqb (strip_spaces (upper galaxy)) "NGC5533"),
    (String.eqb (strip_spaces (upper galaxy)) "NGC7814"); cbn [orb];
    try (repeat split; reflexivity);
    do 5 eexists; repeat split; vm_compute; reflexivity.
Qed.
